(** * PostNL integration: shipment reconciliation, polling cycle, sensors, options

    A shallow embedding of

    - [custom_components/postnl/coordinator.py]
      ([PostNLCoordinator.__init__], [_async_update_data], [transform_shipment]),
    - [custom_components/postnl/sensor.py] ([PostNLDelivery.handle_coordinator_data]),
    - [custom_components/postnl/options_flow.py] ([OptionsFlowHandler.async_step_init]),

    together with the properties the specification states about them.

    Python values that travel through the code (decoded JSON) are a tagged
    union [value]; dictionaries are finite maps with string keys.  Python
    exceptions are an enumeration [exn]; a computation that may raise returns
    a [result].  A coroutine is a small tree [task] whose inner nodes are the
    points where it waits for a track-and-trace request. *)

From Stdlib Require Import ZArith QArith Ascii.
From stdpp Require Import gmap strings list fin_maps.

Local Open Scope Z_scope.
Local Open Scope string_scope.

(** ** Python values *)

(** Decoded JSON, as the two carrier APIs and the options form deliver it.
    A finite float is carried as the rational it denotes. *)
#[warnings="-register-all"]
Inductive value : Type :=
| VNone
| VBool (b : bool)
| VInt (z : Z)
| VFloat (q : Q)
| VStr (s : string)
| VList (l : list value)
| VDict (d : gmap string value).

(** Python truthiness ([if x:], [not x]). *)
Definition truthy (v : value) : bool :=
  match v with
  | VNone => false
  | VBool b => b
  | VInt z => negb (Z.eqb z 0)
  | VFloat q => negb (Z.eqb (Qnum q) 0)
  | VStr s => negb (String.eqb s "")
  | VList l => match l with [] => false | _ => true end
  | VDict d => negb (Nat.eqb (size d) 0)
  end.

(** ** Exceptions and results *)

Inductive exn : Type :=
| RequestException     (* requests.exceptions.RequestException *)
| UpdateFailed         (* homeassistant.helpers.update_coordinator.UpdateFailed *)
| HomeAssistantError
| AttributeError
| KeyError
| TypeError
| ValueError.

Inductive result (A : Type) : Type :=
| Ok (a : A)
| Raise (e : exn).
Arguments Ok {A} a.
Arguments Raise {A} e.

Global Instance result_ret : MRet result := fun _ a => Ok a.
Global Instance result_bind : MBind result := fun _ _ f r =>
  match r with
  | Ok a => f a
  | Raise e => Raise e
  end.

(** ** Python operations on values *)

(** [x.get(k, dflt)] with a literal key: only a dict has the method. *)
Definition py_get (x : value) (k : string) (dflt : value) : result value :=
  match x with
  | VDict d => Ok (default dflt (d !! k))
  | _ => Raise AttributeError
  end.

(** [x[k]] with a literal string key: [KeyError] on a dict without the key;
    a list or a string wants integer indices and every other value is not
    subscriptable, both [TypeError]. *)
Definition py_index (x : value) (k : string) : result value :=
  match x with
  | VDict d =>
      match d !! k with
      | Some v => Ok v
      | None => Raise KeyError
      end
  | _ => Raise TypeError
  end.

(** [needle in hay] for two strings: substring test. *)
Fixpoint str_contains (needle hay : string) : bool :=
  String.prefix needle hay ||
  match hay with
  | EmptyString => false
  | String _ hay' => str_contains needle hay'
  end.

Definition is_str (k : string) (v : value) : bool :=
  match v with
  | VStr s => String.eqb s k
  | _ => false
  end.

(** [k in x] with a literal string [k]: key membership on a dict, element
    membership on a list, substring on a string; anything else is not
    iterable. *)
Definition py_contains (k : string) (x : value) : result bool :=
  match x with
  | VDict d => Ok (bool_decide (is_Some (d !! k)))
  | VList l => Ok (existsb (is_str k) l)
  | VStr s => Ok (str_contains k s)
  | _ => Raise TypeError
  end.

(** Looking up the bound method [x.get]. *)
Definition py_getattr_get (x : value) : result (gmap string value) :=
  match x with
  | VDict d => Ok d
  | _ => Raise AttributeError
  end.

(** [d.get(k, dflt)] with a computed key on a dict decoded from JSON (all of
    its keys are strings): a list or dict key is unhashable, a key that is
    not a string equals no key of [d]. *)
Definition dict_get_value (d : gmap string value) (k : value) (dflt : value)
  : result value :=
  match k with
  | VStr s => Ok (default dflt (d !! s))
  | VList _ | VDict _ => Raise TypeError
  | _ => Ok dflt
  end.

(** [isinstance(x, dict)]. *)
Definition isinstance_dict (x : value) : bool :=
  match x with
  | VDict _ => true
  | _ => false
  end.

(** ** Coroutines *)

(** A coroutine of the coordinator either has finished, or waits for
    [hass.async_add_executor_job(self.jouw_api.track_and_trace, key)] and
    goes on with what the job returned or raised. *)
Inductive task (A : Type) : Type :=
| Done (r : result A)
| Await (key : value) (k : result value -> task A).
Arguments Done {A} r.
Arguments Await {A} key k.

Global Instance task_ret : MRet task := fun _ a => Done (Ok a).

Fixpoint task_bind_fix {A B} (f : A -> task B) (t : task A) : task B :=
  match t with
  | Done (Ok a) => f a
  | Done (Raise e) => Done (Raise e)
  | Await key k => Await key (fun r => task_bind_fix f (k r))
  end.
Global Instance task_bind : MBind task := @task_bind_fix.

(** [await self.hass.async_add_executor_job(self.jouw_api.track_and_trace, key)] *)
Definition track_and_trace (key : value) : task value :=
  Await key Done.

(** What [except requests.exceptions.RequestException: raise UpdateFailed(...)]
    makes of the outcome of the guarded block. *)
Definition raise_UpdateFailed {A} (r : result A) : result A :=
  match r with
  | Raise RequestException => Raise UpdateFailed
  | _ => r
  end.

(** [try: ... except requests.exceptions.RequestException: raise UpdateFailed(...)] *)
Fixpoint except_RequestException {A} (t : task A) : task A :=
  match t with
  | Done r => Done (raise_UpdateFailed r)
  | Await key k => Await key (fun r => except_RequestException (k r))
  end.

(** Running a coroutine to its end against the carrier's answers. *)
Fixpoint run {A} (api : value -> result value) (t : task A) : result A :=
  match t with
  | Done r => r
  | Await key k => run api (k (api key))
  end.

(** The track-and-trace requests a coroutine makes on the way. *)
Fixpoint requests {A} (api : value -> result value) (t : task A) : list value :=
  match t with
  | Done _ => []
  | Await key k => key :: requests api (k (api key))
  end.

(** ** Package *)

(** Modelled from the spec: [structs/package.py] is not part of the sources
    at hand.  A Package is a flat record; its four planned/expected fields
    are optional constructor arguments.  [None] in one of them says that the
    argument was not passed, [Some v] that [v] was passed ([Some VNone] for
    an explicit Python [None]). *)
Record Package : Type := mkPackage {
  key : value;
  name : value;
  url : value;
  shipment_type : value;
  status_message : value;
  delivered : value;
  delivery_date : value;
  delivery_address_type : value;
  planned_date : option value;
  planned_from : option value;
  planned_to : option value;
  expected_datetime : option value
}.

(** ** coordinator.py: transform_shipment *)

(** [shipment.get(k)] once [shipment] is known to be a dict. *)
Definition shipment_get (shipment : gmap string value) (k : string) : value :=
  default VNone (shipment !! k).

(** Lines 87-92: the colli of the shipment's barcode in the track-and-trace
    answer, [VNone] when there is none. *)
Definition find_colli (shipment : gmap string value) (track_and_trace_details : value)
  : result value :=
  if negb (truthy track_and_trace_details) then Ok VNone
  else
    has_colli ← py_contains "colli" track_and_trace_details;
    if negb has_colli then Ok VNone
    else
      collis ← py_index track_and_trace_details "colli";
      collis_get ← py_getattr_get collis;
      barcode ← py_index (VDict shipment) "barcode";
      dict_get_value collis_get barcode VNone.

(** Lines 94-117: the planned/expected fields and the local [status_message]. *)
Definition planned_fields (shipment : gmap string value) (colli : value)
  : result (value * value * value * value * value) :=
  if truthy colli then
    route_information ← py_get colli "routeInformation" VNone;
    '(planned_date, planned_from, planned_to, expected_datetime) ←
      (if truthy route_information then
         planned_date ← py_get route_information "plannedDeliveryTime" VNone;
         window_from ← py_get route_information "plannedDeliveryTimeWindow" (VDict ∅);
         planned_from ← py_get window_from "startDateTime" VNone;
         window_to ← py_get route_information "plannedDeliveryTimeWindow" (VDict ∅);
         planned_to ← py_get window_to "endDateTime" VNone;
         expected_datetime ← py_get route_information "expectedDeliveryTime" VNone;
         Ok (planned_date, planned_from, planned_to, expected_datetime)
       else
         Ok (shipment_get shipment "deliveryWindowFrom",
             shipment_get shipment "deliveryWindowFrom",
             shipment_get shipment "deliveryWindowTo",
             VNone));
    status_phase ← py_get colli "statusPhase" VNone;
    status_message ←
      (if isinstance_dict status_phase
       then py_get status_phase "message" (VStr "Unknown")
       else Ok (VStr "Unknown"));
    Ok (planned_date, planned_from, planned_to, expected_datetime, status_message)
  else
    Ok (shipment_get shipment "deliveryWindowFrom",
        shipment_get shipment "deliveryWindowFrom",
        shipment_get shipment "deliveryWindowTo",
        VNone,
        VStr "Unknown").

(** Lines 119-132: the Package of a shipment that is still under way.  The
    status message is read from [colli] again; the local [status_message] of
    lines 110 and 117 is not used. *)
Definition build_package (shipment : gmap string value) (colli : value)
    (fields : value * value * value * value * value) : result Package :=
  let '(planned_date, planned_from, planned_to, expected_datetime, status_message) :=
    fields in
  status_phase ← py_get colli "statusPhase" (VDict ∅);
  message ← py_get status_phase "message" (VStr "Unknown");
  Ok {| key := shipment_get shipment "key";
        name := shipment_get shipment "title";
        url := shipment_get shipment "detailsUrl";
        shipment_type := shipment_get shipment "shipmentType";
        status_message := message;
        delivered := shipment_get shipment "delivered";
        delivery_date := shipment_get shipment "deliveredTimeStamp";
        delivery_address_type := shipment_get shipment "deliveryAddressType";
        planned_date := Some planned_date;
        planned_from := Some planned_from;
        planned_to := Some planned_to;
        expected_datetime := Some expected_datetime |}.

(** Lines 73-82. *)
Definition delivered_package (shipment : gmap string value) : Package :=
  {| key := shipment_get shipment "key";
     name := shipment_get shipment "title";
     url := shipment_get shipment "detailsUrl";
     shipment_type := shipment_get shipment "shipmentType";
     status_message := VStr "Pakket is bezorgd";
     delivered := shipment_get shipment "delivered";
     delivery_date := shipment_get shipment "deliveredTimeStamp";
     delivery_address_type := shipment_get shipment "deliveryAddressType";
     planned_date := None;
     planned_from := None;
     planned_to := None;
     expected_datetime := None |}.

(** What follows the track-and-trace request (lines 87-132). *)
Definition reconcile (shipment : gmap string value) (track_and_trace_details : value)
  : result Package :=
  colli ← find_colli shipment track_and_trace_details;
  fields ← planned_fields shipment colli;
  build_package shipment colli fields.

(** [PostNLCoordinator.transform_shipment].  The debug call of line 67
    evaluates [shipment.get('key')] before the [try], so a shipment that is
    not a dict raises [AttributeError] there; on a dict no later
    [shipment.get] can raise. *)
Definition transform_shipment (shipment : value) : task Package :=
  match shipment with
  | VDict sh =>
      except_RequestException (
        if truthy (shipment_get sh "delivered") then
          mret (delivered_package sh)
        else
          key ← Done (py_index shipment "key");
          track_and_trace_details ← track_and_trace key;
          Done (reconcile sh track_and_trace_details))
  | _ => Done (Raise AttributeError)
  end.

(** ** coordinator.py: the polling cycle *)

(** What the outside world answers during one polling cycle. *)
Record Carrier : Type := mkCarrier {
  (* [auth.check_and_refresh_token()], with the registry lookups before it *)
  check_and_refresh_token : result unit;
  (* [self.graphq_api.shipments()] *)
  graphql_shipments : result value;
  (* [self.jouw_api.track_and_trace(key)] *)
  jouw_track_and_trace : value -> result value
}.

(** The characters of a string, each a string of length one. *)
Fixpoint str_chars (s : string) : list value :=
  match s with
  | EmptyString => []
  | String a s' => VStr (String a EmptyString) :: str_chars s'
  end.

(** [for shipment in x]: the elements of a list, the keys of a dict, the
    characters of a string.  The keys come in the order of the finite map,
    not in insertion order; no key is a dict, so every coroutine made from
    one ends at line 67 whatever the order. *)
Definition py_iter (x : value) : result (list value) :=
  match x with
  | VList l => Ok l
  | VDict d => Ok (VStr <$> (map_to_list d).*1)
  | VStr s => Ok (str_chars s)
  | _ => Raise TypeError
  end.

(** [shipments.get('trackedShipments', {}).get(role, [])], iterated. *)
Definition tracked_shipments (shipments : value) (role : string) : result (list value) :=
  tracked ← py_get shipments "trackedShipments" (VDict ∅);
  listed ← py_get tracked role (VList []);
  py_iter listed.

(** A cycle can end in more than one way, because [asyncio.gather] reports
    whichever failure comes first in time: the possible outcomes are listed. *)
Record outcomes (A : Type) : Type := Outcomes { possible : list (result A) }.
Arguments Outcomes {A} possible.
Arguments possible {A} o.

Global Instance outcomes_ret : MRet outcomes := fun _ a => Outcomes [Ok a].
Global Instance outcomes_bind : MBind outcomes := fun _ _ f m =>
  Outcomes (flat_map (fun r => match r with
                               | Ok a => possible (f a)
                               | Raise e => [Raise e]
                               end) (possible m)).

Definition only {A} (r : result A) : outcomes A := Outcomes [r].

Definition outcomes_except_RequestException {A} (m : outcomes A) : outcomes A :=
  Outcomes (raise_UpdateFailed <$> possible m).

(** The first coroutine, in argument order, that raises before it waits for
    anything. *)
Fixpoint first_immediate_raise {A} (ts : list (task A)) : option exn :=
  match ts with
  | [] => None
  | Done (Raise e) :: _ => Some e
  | _ :: ts' => first_immediate_raise ts'
  end.

Fixpoint all_ok {A} (rs : list (result A)) : option (list A) :=
  match rs with
  | [] => Some []
  | Ok a :: rs' => cons a <$> all_ok rs'
  | Raise _ :: _ => None
  end.

Fixpoint raised {A} (rs : list (result A)) : list exn :=
  match rs with
  | [] => []
  | Ok _ :: rs' => raised rs'
  | Raise e :: rs' => e :: raised rs'
  end.

(** [await asyncio.gather] over the coroutines [ts].  The coroutines are
    started in argument order and each runs up to its first wait.  If all
    succeed the results come in argument order.  Otherwise the first
    exception in time is raised: one raised before any waiting precedes
    every answer of the executor, and such exceptions are seen in argument
    order; among the coroutines that waited, any that raises may be the
    first. *)
Definition gather {A} (api : value -> result value) (ts : list (task A))
  : outcomes (list A) :=
  match first_immediate_raise ts with
  | Some e => Outcomes [Raise e]
  | None =>
      match all_ok (run api <$> ts) with
      | Some xs => Outcomes [Ok xs]
      | None => Outcomes (Raise <$> raised (run api <$> ts))
      end
  end.

(** [PostNLCoordinator._async_update_data]; the data is the dict with the
    keys ['receiver'] and ['sender']. *)
Definition _async_update_data (w : Carrier) : outcomes (gmap string (list Package)) :=
  outcomes_except_RequestException (
    _ ← only (check_and_refresh_token w);
    shipments ← only (graphql_shipments w);
    receiver_listed ← only (tracked_shipments shipments "receiverShipments");
    receiver ← gather (jouw_track_and_trace w) (transform_shipment <$> receiver_listed);
    sender_listed ← only (tracked_shipments shipments "senderShipments");
    sender ← gather (jouw_track_and_trace w) (transform_shipment <$> sender_listed);
    mret (<["sender" := sender]> (<["receiver" := receiver]>
            ({[ "receiver" := []; "sender" := [] ]} : gmap string (list Package))))).


(** [PostNLCoordinator.__init__]: what the base class is given. *)
Record DataUpdateCoordinator : Type := mkCoordinator {
  coordinator_name : string;
  update_interval : Z  (* seconds of the [timedelta] *)
}.

(** The part of [hass] a coordinator could consult: the options stored for
    the config entry. *)
Record HomeAssistant : Type := mkHass {
  entry_options : gmap string value
}.

Definition PostNLCoordinator (hass : HomeAssistant) : DataUpdateCoordinator :=
  {| coordinator_name := "PostNL";
     update_interval := 90 |}.

(** ** sensor.py: PostNLDelivery *)

(** The fields of the entity that [handle_coordinator_data] reads or writes.
    [vars(package)] is the attribute dict of the package itself; it is
    carried here as the package. *)
Record PostNLDelivery : Type := mkSensor {
  _attributes : gmap string (list Package);
  _state : option nat;
  receiver : bool
}.

(** [d[k]] on a dict of package lists. *)
Definition attr_index (d : gmap string (list Package)) (k : string)
  : result (list Package) :=
  match d !! k with
  | Some l => Ok l
  | None => Raise KeyError
  end.

(** [attrs[k].append(p)] *)
Definition attr_append (attrs : gmap string (list Package)) (k : string) (p : Package)
  : result (gmap string (list Package)) :=
  l ← attr_index attrs k;
  Ok (<[k := (l ++ [p])%list]> attrs).

(** The loop of lines 122-126. *)
Fixpoint sort_packages (attrs : gmap string (list Package)) (coordinator_data : list Package)
  : result (gmap string (list Package)) :=
  match coordinator_data with
  | [] => Ok attrs
  | package :: rest =>
      attrs' ← (if truthy (delivered package)
                then attr_append attrs "delivered" package
                else attr_append attrs "enroute" package);
      sort_packages attrs' rest
  end.

(** [PostNLDelivery.handle_coordinator_data], with [self.coordinator.data]
    as [data]. *)
Definition handle_coordinator_data (data : gmap string (list Package))
    (self : PostNLDelivery) : result PostNLDelivery :=
  let attrs := <["enroute" := []]> (<["delivered" := []]> (_attributes self)) in
  coordinator_data ←
    (if receiver self then attr_index data "receiver" else attr_index data "sender");
  attrs ← sort_packages attrs coordinator_data;
  enroute ← attr_index attrs "enroute";
  Ok {| _attributes := attrs;
        _state := Some (length enroute);
        receiver := receiver self |}.

(** [handle_coordinator_data] called [n] times in a row on the same data. *)
Fixpoint refresh_times (n : nat) (data : gmap string (list Package))
    (self : PostNLDelivery) : result PostNLDelivery :=
  match n with
  | O => Ok self
  | S n' => self' ← handle_coordinator_data data self; refresh_times n' data self'
  end.

(** The packages of a list that have arrived, and those still under way, as
    line 123 tells them apart. *)
Definition arrived (l : list Package) : list Package :=
  List.filter (fun p => truthy (delivered p)) l.

Definition under_way (l : list Package) : list Package :=
  List.filter (fun p => negb (truthy (delivered p))) l.

(** The delivered flag is the boolean [False]. *)
Definition delivered_false (p : Package) : bool :=
  match delivered p with
  | VBool false => true
  | _ => false
  end.

(** The key of the coordinator data a sensor reads. *)
Definition role_of (self : PostNLDelivery) : string :=
  if receiver self then "receiver" else "sender".

(** ** options_flow.py *)

Section OptionsFlow.

(** [int(s)] on a string: Python's parser of integer literals, not spelled
    out here. *)
Variable int_of_str : string -> option Z.

(** The voluptuous validators the schema is built from. *)
#[warnings="-register-all"]
Inductive validator : Type :=
| Coerce_int
| Range_min (min : Z)
| All (vs : list validator).

(** [int(v)], [None] where it raises [ValueError] or [TypeError]. *)
Definition py_int (v : value) : option Z :=
  match v with
  | VInt z => Some z
  | VBool b => Some (if b then 1 else 0)
  | VFloat q => Some (Z.quot (Qnum q) (Z.pos (Qden q)))
  | VStr s => int_of_str s
  | _ => None
  end.

(** [v < min] is what [Range(min=...)] refuses; a value that does not
    compare with an integer is refused as well. *)
Definition below (v : value) (min : Z) : option bool :=
  match v with
  | VInt z => Some (Z.ltb z min)
  | VBool b => Some (Z.ltb (if b then 1 else 0) min)
  | VFloat q => Some (Z.ltb (Qnum q) (min * Z.pos (Qden q)))
  | _ => None
  end.

(** Applying a validator: the validated value, or [None] for [vol.Invalid]. *)
Fixpoint validate (f : validator) (v : value) : option value :=
  match f with
  | Coerce_int => VInt <$> py_int v
  | Range_min min =>
      match below v min with
      | Some false => Some v
      | _ => None
      end
  | All vs =>
      (fix chain (vs : list validator) (v : value) : option value :=
         match vs with
         | [] => Some v
         | f' :: vs' =>
             match validate f' v with
             | Some v' => chain vs' v'
             | None => None
             end
         end) vs v
  end.

(** [vol.Schema({vol.Optional(key, default=dflt): f})] applied to the
    submitted input: only a dict passes, an unknown key is refused, a missing
    key takes the default, and the value (also the default) goes through
    [f]. *)
Record schema : Type := mkSchema {
  schema_key : string;
  schema_default : value;
  schema_validator : validator
}.

Definition apply_schema (s : schema) (user_input : value) : option (gmap string value) :=
  match user_input with
  | VDict d =>
      if bool_decide (dom d ⊆ ({[ schema_key s ]} : gset string)) then
        v ← validate (schema_validator s)
              (default (schema_default s) (d !! schema_key s));
        Some (<[schema_key s := v]> d)
      else None
  | _ => None
  end.

Inductive flow_result : Type :=
| create_entry (data : value)
| show_form (step_id : string) (data_schema : schema).

(** [OptionsFlowHandler.async_step_init], with [self.config_entry.options]
    as [options]. *)
Definition async_step_init (options : gmap string value) (user_input : option value)
  : flow_result :=
  match user_input with
  | Some data => create_entry data
  | None =>
      let update_interval := default (VInt 90) (options !! "update_interval") in
      let options_schema :=
        {| schema_key := "update_interval";
           schema_default := update_interval;
           schema_validator := All [Coerce_int; Range_min 30] |} in
      show_form "init" options_schema
  end.

(** The host's side of the flow: the form is shown, the submitted input goes
    through the schema of that form, and only validated input reaches the
    step again; the entry it creates becomes the stored options. *)
Definition submit_options (options : gmap string value) (user_input : value)
  : option value :=
  match async_step_init options None with
  | show_form _ data_schema =>
      validated ← apply_schema data_schema user_input;
      match async_step_init options (Some (VDict validated)) with
      | create_entry data => Some data
      | show_form _ _ => None
      end
  | create_entry _ => None
  end.

End OptionsFlow.

(** ** Reading a decoded record *)

(** The field [k] of [x], [dflt] where [x] is no mapping or has no such
    field. *)
Definition field_or (dflt : value) (x : value) (k : string) : value :=
  match x with
  | VDict d => default dflt (d !! k)
  | _ => dflt
  end.

Definition field : value -> string -> value := field_or VNone.

(** ** Sample data *)

Definition dict (l : list (string * value)) : value := VDict (list_to_map l).

(** A parcel that is still under way. *)
Definition parcel : gmap string value :=
  list_to_map
    [("key", VStr "K1"); ("title", VStr "Boeken"); ("barcode", VStr "3SABCD");
     ("delivered", VBool false);
     ("deliveryWindowFrom", VStr "2024-05-01T10:00");
     ("deliveryWindowTo", VStr "2024-05-01T12:00")].

(** A parcel under way that carries every field the Package copies. *)
Definition parcel_complete : gmap string value :=
  list_to_map
    [("key", VStr "K7"); ("title", VStr "Fiets"); ("barcode", VStr "3SABCD");
     ("detailsUrl", VStr "https://jouw.postnl.nl/track/K7");
     ("shipmentType", VStr "Parcel");
     ("delivered", VBool false);
     ("deliveredTimeStamp", VStr "n/a");
     ("deliveryAddressType", VStr "Recipient")].

(** A parcel that has arrived. *)
Definition parcel_delivered : gmap string value :=
  list_to_map
    [("key", VStr "K0"); ("title", VStr "Schoenen"); ("barcode", VStr "3SWXYZ");
     ("delivered", VBool true); ("deliveredTimeStamp", VStr "2024-04-30T09:12")].

Definition route : value :=
  dict [("plannedDeliveryTime", VStr "2024-05-01T11:00");
        ("plannedDeliveryTimeWindow",
           dict [("startDateTime", VStr "2024-05-01T10:30");
                 ("endDateTime", VStr "2024-05-01T11:30")]);
        ("expectedDeliveryTime", VStr "2024-05-01T11:05")].

Definition answer_of (colli : value) : value :=
  dict [("colli", dict [("3SABCD", colli)])].

Definition colli_on_route : value :=
  dict [("routeInformation", route);
        ("statusPhase", dict [("message", VStr "Onderweg")])].

Definition colli_sorting : value :=
  dict [("statusPhase", dict [("message", VStr "Sortering")])].

(** A colli whose status phase is there but is no mapping. *)
Definition colli_null_phase : value :=
  dict [("statusPhase", VNone)].

(** The carrier answers every request with [v]. *)
Definition answers (v : value) : value -> result value := fun _ => Ok v.

(** A colli whose status phase is a plain string. *)
Definition colli_text_phase : value :=
  dict [("statusPhase", VStr "Bezorgd")].

(** A listed shipment that lacks its key. *)
Definition parcel_without_key : gmap string value :=
  list_to_map
    [("title", VStr "Jas"); ("barcode", VStr "3SQRST"); ("delivered", VBool false)].

(** A cycle in which the token is fine and the shipment list names the given
    receiver and sender shipments. *)
Definition cycle_of (receivers senders : list value) (api : value -> result value)
  : Carrier :=
  {| check_and_refresh_token := Ok tt;
     graphql_shipments :=
       Ok (dict [("trackedShipments",
                  dict [("receiverShipments", VList receivers);
                        ("senderShipments", VList senders)])]);
     jouw_track_and_trace := api |}.

(** The carrier cannot be reached. *)
Definition unreachable : value -> result value := fun _ => Raise RequestException.

(** Two packages as a cycle leaves them, and a sensor as [__init__] sets it
    up before its first refresh. *)
Definition package_arrived : Package := delivered_package parcel_delivered.

Definition package_under_way : Package :=
  {| key := VStr "K1"; name := VStr "Boeken"; url := VNone; shipment_type := VNone;
     status_message := VStr "Onderweg"; delivered := VBool false;
     delivery_date := VNone; delivery_address_type := VNone;
     planned_date := Some (VStr "2024-05-01T11:00");
     planned_from := Some (VStr "2024-05-01T10:30");
     planned_to := Some (VStr "2024-05-01T11:30");
     expected_datetime := Some (VStr "2024-05-01T11:05") |}.

Definition sample_data : gmap string (list Package) :=
  {[ "receiver" := [package_arrived; package_under_way; package_under_way];
     "sender" := [package_arrived] ]}.

Definition new_sensor (receiver : bool) : PostNLDelivery :=
  {| _attributes := {[ "enroute" := []; "delivered" := [] ]};
     _state := None;
     receiver := receiver |}.

(** ** sensor.py: setting up the two sensors *)

Module Sensor.
Section WithDomain.

(** [DOMAIN] of [const.py], which is not among the sources at hand. *)
Variable DOMAIN : string.

(** The entity with the fields that [__init__] sets besides those of the
    refresh. *)
Record Entity : Type := mkEntity {
  postnl_userinfo : value;
  _unique_id : value;
  _name : string;
  fields : PostNLDelivery
}.

(** [DeviceInfo(identifiers={(DOMAIN, ...)}, name=..., manufacturer=...)];
    the set of identifiers has the one pair. *)
Record DeviceInfo : Type := mkDeviceInfo {
  identifiers : string * value;
  device_name : value;
  manufacturer : string
}.

(** [x + s] for a string literal [s]: only a string can be extended. *)
Definition py_add_str (x : value) (s : string) : result value :=
  match x with
  | VStr a => Ok (VStr (a ++ s))
  | _ => Raise TypeError
  end.

(** [PostNLDelivery.__init__], with [coordinator.data] as [data]: the fields
    are set and the first refresh is done on the spot. *)
Definition __init__ (data : gmap string (list Package)) (postnl_userinfo unique_id : value)
    (name : string) (receiver : bool) : result Entity :=
  self ← handle_coordinator_data data
           {| _attributes := {[ "enroute" := []; "delivered" := [] ]};
              _state := None;
              receiver := receiver |};
  Ok {| postnl_userinfo := postnl_userinfo;
        _unique_id := unique_id;
        _name := name;
        fields := self |}.

(** The properties [unique_id], [name], [state], [unit_of_measurement],
    [extra_state_attributes] and [icon]. *)
Definition unique_id (self : Entity) : value := _unique_id self.
Definition name (self : Entity) : string := _name self.
Definition state (self : Entity) : option nat := _state (fields self).
Definition unit_of_measurement (self : Entity) : string := "packages".
Definition extra_state_attributes (self : Entity) : gmap string (list Package) :=
  _attributes (fields self).
Definition icon (self : Entity) : string := "mdi:package-variant-closed".

(** The property [device_info]. *)
Definition device_info (self : Entity) : result DeviceInfo :=
  account_id ← py_get (postnl_userinfo self) "account_id" VNone;
  email ← py_get (postnl_userinfo self) "email" VNone;
  Ok {| identifiers := (DOMAIN, account_id);
        device_name := email;
        manufacturer := "PostNL" |}.

(** How [async_setup_entry] can end. *)
Inductive setup : Type :=
| ConfigEntryNotReady            (* raised by the first refresh *)
| Raises (e : exn)
| NothingAdded                   (* the early [return] *)
| Added (entities : list Entity) (* [async_add_entities([...])] *).

(** [async_setup_entry].  [first_refresh] is how the coordinator's first
    cycle ended; the host's [async_config_entry_first_refresh] raises
    [ConfigEntryNotReady] when it failed and otherwise leaves its data in
    [coordinator.data].  [stored_userinfo] is the 'userinfo' item of
    [hass.data[DOMAIN][entry.entry_id]], if there is one. *)
Definition async_setup_entry (first_refresh : result (gmap string (list Package)))
    (stored_userinfo : option value) : setup :=
  match first_refresh with
  | Raise _ => ConfigEntryNotReady
  | Ok data =>
      let userinfo := default (VDict ∅) stored_userinfo in
      if negb (truthy userinfo) then NothingAdded
      else
        match
          account_id ← py_get userinfo "account_id" VNone;
          prefixed ← py_add_str account_id "_";
          delivery_id ← py_add_str prefixed "delivery";
          delivery ← __init__ data userinfo delivery_id "PostNL_delivery" true;
          account_id ← py_get userinfo "account_id" VNone;
          prefixed ← py_add_str account_id "_";
          distribution_id ← py_add_str prefixed "distribution";
          distribution ←
            __init__ data userinfo distribution_id "PostNL_distribution" false;
          Ok [delivery; distribution]
        with
        | Ok entities => Added entities
        | Raise e => Raises e
        end
  end.

(** [_handle_coordinator_update]: the refresh, after which the host writes
    the state. *)
Definition _handle_coordinator_update (data : gmap string (list Package))
    (self : Entity) : result Entity :=
  refreshed ← handle_coordinator_data data (fields self);
  Ok {| postnl_userinfo := postnl_userinfo self;
        _unique_id := _unique_id self;
        _name := _name self;
        fields := refreshed |}.

End WithDomain.
End Sensor.

(** ** __init__.py: token check, setup, migration of unique ids, unload *)

Module Init.

(** What the calls of [__init__.py] can raise: the exceptions that the code
    tells apart, and [Py e] for the others ([Py RequestException] is a
    requests exception other than a [ConnectionError]). *)
Inductive raised : Type :=
| ConnectionError                   (* requests.exceptions.ConnectionError *)
| MaxRetryError                     (* urllib3.exceptions.MaxRetryError *)
| ClientResponseError (status : Z)  (* aiohttp, carries the HTTP status *)
| ClientError                       (* any other aiohttp ClientError: no status *)
| TransportQueryError               (* gql *)
| ConfigEntryNotReady
| Py (e : exn).

Inductive attempt (A : Type) : Type :=
| Fine (a : A)
| Fails (e : raised).
Arguments Fine {A} a.
Arguments Fails {A} e.

(** [isinstance(e, requests.exceptions.RequestException)] *)
Definition is_RequestException (e : raised) : bool :=
  match e with
  | ConnectionError | Py RequestException => true
  | _ => false
  end.

(** The token of the OAuth2 session; [expires_at] in seconds. *)
Record Token : Type := mkToken {
  access_token : string;
  expires_at : Z
}.

(** What lies outside the integration. *)
Record Host : Type := mkHost {
  (* [oauth_session.async_ensure_token_valid()]: the token afterwards *)
  async_ensure_token_valid : Token -> attempt Token;
  (* [PostNLGraphql(access_token).profile()] *)
  profile : string -> attempt unit;
  (* [PostNLLoginAPI(access_token).userinfo()] *)
  login_userinfo : string -> attempt value;
  (* [entity_registry.async_update_entity(entity_id=..., new_unique_id=...)] *)
  async_update_entity : string -> string -> attempt unit;
  (* [hass.config_entries.async_forward_entry_setups(entry, PLATFORMS)] *)
  async_forward_entry_setups : attempt unit
}.

(** [AsyncConfigEntryAuth.force_refresh_expire] at the time [now]. *)
Definition force_refresh_expire (now : Z) (token : Token) : Token :=
  {| access_token := access_token token; expires_at := now - 600 |}.

(** How [check_and_refresh_token] ends: what it returns or raises, the token
    of the session afterwards, and whether the reauth flow was started. *)
Record checked : Type := mkChecked {
  returned : attempt string;
  token_after : Token;
  reauth_started : bool
}.

(** The guarded block of [check_and_refresh_token]. *)
Definition ensure_and_probe (host : Host) (token : Token) : attempt unit * Token :=
  match async_ensure_token_valid host token with
  | Fails e => (Fails e, token)
  | Fine token' =>
      match profile host (access_token token') with
      | Fails e => (Fails e, token')
      | Fine _ => (Fine tt, token')
      end
  end.

(** [AsyncConfigEntryAuth.check_and_refresh_token].  In the first handler
    [exception.status] is read: a [ClientError] that is no
    [ClientResponseError] has no such attribute. *)
Definition check_and_refresh_token (host : Host) (now : Z) (token : Token) : checked :=
  match ensure_and_probe host token with
  | (Fine _, token') =>
      {| returned := Fine (access_token token');
         token_after := token'; reauth_started := false |}
  | (Fails (ClientResponseError status), token') =>
      {| returned := Fails (Py HomeAssistantError);
         token_after := token'; reauth_started := Z.eqb status 400 |}
  | (Fails ClientError, token') =>
      {| returned := Fails (Py AttributeError);
         token_after := token'; reauth_started := false |}
  | (Fails TransportQueryError, token') =>
      let expired := force_refresh_expire now token' in
      match async_ensure_token_valid host expired with
      | Fine token'' =>
          {| returned := Fine (access_token token'');
             token_after := token''; reauth_started := false |}
      | Fails e =>
          {| returned := Fails e; token_after := expired; reauth_started := false |}
      end
  | (Fails e, token') =>
      {| returned := Fails e; token_after := token'; reauth_started := false |}
  end.

Section WithDomain.

(** [DOMAIN] of [const.py], which is not among the sources at hand. *)
Variable DOMAIN : string.

(** An entry of the entity registry and one of the device registry, with the
    fields that the migration looks at. *)
Record RegistryEntry : Type := mkRegistryEntry {
  entity_id : string;
  unique_id : string;
  device_id : string
}.

Record DeviceEntry : Type := mkDeviceEntry {
  id : string;
  identifiers : gset (string * string)
}.

(** [s.split(sep)] for a separator of one character. *)
Fixpoint split (sep : Ascii.ascii) (s : string) : list string :=
  match s with
  | EmptyString => [EmptyString]
  | String c s' =>
      if Ascii.eqb c sep then EmptyString :: split sep s'
      else
        match split sep s' with
        | part :: parts => String c part :: parts
        | [] => [String c EmptyString]
        end
  end.

(** Lines 71-73: the unique id that an entity is given. *)
Definition new_unique_id (account_id old_unique_id : string) : string :=
  let unique_id_parts := split "_"%char old_unique_id in
  (account_id ++ "_" ++
   (if Nat.ltb 1 (length unique_id_parts)
    then nth 1 unique_id_parts EmptyString
    else nth 0 unique_id_parts EmptyString))%string.

(** Lines 66-77: the loop over the entities of one device.  It gives the
    update requests made, in order, and stops at one that the registry
    refuses. *)
Fixpoint migrate_entities (host : Host) (account_id : string)
    (entries : list RegistryEntry) : list (string * string) * attempt unit :=
  match entries with
  | [] => ([], Fine tt)
  | entity_entry :: rest =>
      if String.prefix account_id (unique_id entity_entry) then
        migrate_entities host account_id rest
      else
        let entity_new_unique_id := new_unique_id account_id (unique_id entity_entry) in
        match async_update_entity host (entity_id entity_entry) entity_new_unique_id with
        | Fails e => ([(entity_id entity_entry, entity_new_unique_id)], Fails e)
        | Fine _ =>
            let '(requests, status) := migrate_entities host account_id rest in
            ((entity_id entity_entry, entity_new_unique_id) :: requests, status)
        end
  end.

(** [er.async_entries_for_device(entity_registry, device_id, True)] *)
Definition async_entries_for_device (entity_registry : list RegistryEntry)
    (device : string) : list RegistryEntry :=
  List.filter (fun e => String.eqb (device_id e) device) entity_registry.

(** Lines 63-77: the loop over the devices of the config entry.  The set
    [{(DOMAIN, account_id)}] cannot be built from an unhashable account id,
    and equals no set of string pairs unless the account id is a string. *)
Fixpoint migrate (host : Host) (userinfo : value) (devices : list DeviceEntry)
    (entity_registry : list RegistryEntry) : list (string * string) * attempt unit :=
  match devices with
  | [] => ([], Fine tt)
  | device_entry :: rest =>
      match py_get userinfo "account_id" VNone with
      | Raise e => ([], Fails (Py e))
      | Ok (VList _) | Ok (VDict _) => ([], Fails (Py TypeError))
      | Ok (VStr account_id) =>
          if bool_decide (identifiers device_entry = {[ (DOMAIN, account_id) ]}) then
            match migrate_entities host account_id
                    (async_entries_for_device entity_registry (id device_entry)) with
            | (requests, Fails e) => (requests, Fails e)
            | (requests, Fine _) =>
                let '(more, status) := migrate host userinfo rest entity_registry in
                ((requests ++ more)%list, status)
            end
          else migrate host userinfo rest entity_registry
      | Ok _ => migrate host userinfo rest entity_registry
      end
  end.

(** What [hass.data[DOMAIN][entry.entry_id]] holds: 'auth', and 'userinfo'
    once it is known. *)
Record EntryData : Type := mkEntryData {
  auth : Token;
  userinfo : option value
}.

(** How [async_setup_entry] ends. *)
Record setup : Type := mkSetup {
  outcome : attempt bool;
  domain_data : gmap string EntryData;   (* [hass.data[DOMAIN]] afterwards *)
  update_requests : list (string * string)
}.

(** [async_setup_entry], with [hass.data[DOMAIN]] as [data] and the devices
    of the config entry as [devices]. *)
Definition async_setup_entry (host : Host) (now : Z) (token : Token)
    (entry_id : string) (data : gmap string EntryData)
    (devices : list DeviceEntry) (entity_registry : list RegistryEntry) : setup :=
  let checked := check_and_refresh_token host now token in
  match returned checked with
  | Fails ConnectionError =>
      {| outcome := Fails ConfigEntryNotReady; domain_data := data; update_requests := [] |}
  | Fails e =>
      {| outcome := Fails e; domain_data := data; update_requests := [] |}
  | Fine _ =>
      let auth := token_after checked in
      let data1 := <[entry_id := {| auth := auth; userinfo := None |}]> data in
      match login_userinfo host (access_token auth) with
      | Fails e =>
          {| outcome :=
               if is_RequestException e then Fails ConfigEntryNotReady
               else match e with
                    | MaxRetryError => Fails ConfigEntryNotReady
                    | _ => Fails e
                    end;
             domain_data := data1; update_requests := [] |}
      | Fine userinfo =>
          match py_contains "error" userinfo with
          | Raise e =>
              {| outcome := Fails (Py e); domain_data := data1; update_requests := [] |}
          | Ok true =>
              {| outcome :=
                   match py_get userinfo "error" VNone with   (* logged first *)
                   | Ok _ => Fails ConfigEntryNotReady
                   | Raise e => Fails (Py e)
                   end;
                 domain_data := data1; update_requests := [] |}
          | Ok false =>
              let data2 :=
                <[entry_id := {| auth := auth; userinfo := Some userinfo |}]> data1 in
              match migrate host userinfo devices entity_registry with
              | (requests, Fails e) =>
                  {| outcome := Fails e; domain_data := data2;
                     update_requests := requests |}
              | (requests, Fine _) =>
                  {| outcome :=
                       match async_forward_entry_setups host with
                       | Fails e => Fails e
                       | Fine _ => Fine true
                       end;
                     domain_data := data2; update_requests := requests |}
              end
          end
      end
  end.

(** [async_unload_entry], with the answer of [async_unload_platforms] as
    [unload_ok]: what it returns or raises, and [hass.data[DOMAIN]]
    afterwards. *)
Definition async_unload_entry (unload_ok : bool) (entry_id : string)
    (data : gmap string EntryData) : attempt bool * gmap string EntryData :=
  if unload_ok then
    match data !! entry_id with
    | Some _ => (Fine true, delete entry_id data)
    | None => (Fails (Py KeyError), data)
    end
  else (Fine false, data).

End WithDomain.
End Init.

(** The character [c] occurs in [s]. *)
Fixpoint has_char (c : Ascii.ascii) (s : string) : bool :=
  match s with
  | EmptyString => false
  | String x s' => Ascii.eqb x c || has_char c s'
  end.

(** A registry entry after the update that the migration asks for, if it
    asks for one. *)
Definition renamed (account_id : string) (e : Init.RegistryEntry) : Init.RegistryEntry :=
  if String.prefix account_id (Init.unique_id e) then e
  else {| Init.entity_id := Init.entity_id e;
          Init.unique_id := Init.new_unique_id account_id (Init.unique_id e);
          Init.device_id := Init.device_id e |}.

(** A host on which every call succeeds, with a fixed userinfo. *)
Definition friendly_host (userinfo : value) : Init.Host :=
  {| Init.async_ensure_token_valid := fun token => Init.Fine token;
     Init.profile := fun _ => Init.Fine tt;
     Init.login_userinfo := fun _ => Init.Fine userinfo;
     Init.async_update_entity := fun _ _ => Init.Fine tt;
     Init.async_forward_entry_setups := Init.Fine tt |}.

Definition sample_token : Init.Token :=
  {| Init.access_token := "tok1"; Init.expires_at := 1700000000 |}.

(** A host whose profile query turns down the token "tok1" and whose
    validation hands out "tok2" for a token that has expired. *)
Definition stale_host : Init.Host :=
  {| Init.async_ensure_token_valid := fun t =>
       if Z.ltb (Init.expires_at t) 1700000100
       then Init.Fine {| Init.access_token := "tok2"; Init.expires_at := 1700003700 |}
       else Init.Fine t;
     Init.profile := fun tok =>
       if String.eqb tok "tok1" then Init.Fails Init.TransportQueryError
       else Init.Fine tt;
     Init.login_userinfo := fun _ => Init.Fine VNone;
     Init.async_update_entity := fun _ _ => Init.Fine tt;
     Init.async_forward_entry_setups := Init.Fine tt |}.

Definition unexpired_token : Init.Token :=
  {| Init.access_token := "tok1"; Init.expires_at := 1700000200 |}.

Definition sample_userinfo : value :=
  dict [("account_id", VStr "acc42"); ("email", VStr "jan@example.nl")].

Definition sample_registry : list Init.RegistryEntry :=
  [ {| Init.entity_id := "sensor.postnl_delivery";
       Init.unique_id := "legacy_delivery"; Init.device_id := "dev1" |};
    {| Init.entity_id := "sensor.postnl_distribution";
       Init.unique_id := "acc42_distribution"; Init.device_id := "dev1" |};
    {| Init.entity_id := "sensor.other";
       Init.unique_id := "legacy_other"; Init.device_id := "dev2" |} ].

Definition sample_devices : list Init.DeviceEntry :=
  [ {| Init.id := "dev1"; Init.identifiers := {[ ("postnl", "acc42") ]} |};
    {| Init.id := "dev2"; Init.identifiers := {[ ("postnl", "someone") ]} |} ].

(** * Properties *)

(** ** Coroutines *)

Lemma run_except {A} api (t : task A) :
  run api (except_RequestException t) = raise_UpdateFailed (run api t).
Proof. induction t as [r|key k IH]; simpl; [done|apply IH]. Qed.

Lemma run_bind {A B} api (t : task A) (f : A -> task B) :
  run api (t ≫= f) =
  match run api t with
  | Ok a => run api (f a)
  | Raise e => Raise e
  end.
Proof.
  induction t as [[a|e]|key k IH]; simpl; done.
Qed.

Lemma truthy_dict_lookup (d : gmap string value) k v :
  d !! k = Some v -> truthy (VDict d) = true.
Proof.
  intros Hk. simpl. destruct (size d) eqn:Hsz; [|done].
  apply map_size_empty_iff in Hsz. subst d. by rewrite lookup_empty in Hk.
Qed.

(** ** transform_shipment on a shipment that is still under way *)

Section UnderWay.

Variable api : value -> result value.
Variable sh : gmap string value.
Variable k : value.
Hypothesis not_delivered : truthy (shipment_get sh "delivered") = false.
Hypothesis has_key : sh !! "key" = Some k.

Lemma run_transform_under_way :
  run api (transform_shipment (VDict sh)) =
  raise_UpdateFailed (details ← api k; reconcile sh details).
Proof.
  unfold transform_shipment. rewrite run_except, not_delivered.
  f_equal. simpl. rewrite has_key. simpl. by destruct (api k).
Qed.

Lemma requests_transform_under_way :
  requests api (transform_shipment (VDict sh)) = [k].
Proof.
  unfold transform_shipment. rewrite not_delivered. simpl.
  rewrite has_key. simpl. by destruct (api k).
Qed.


Section Matching.

Variable d cs : gmap string value.
Variable bc : string.
Variable colli : value.
Hypothesis answer : api k = Ok (VDict d).
Hypothesis has_colli : d !! "colli" = Some (VDict cs).
Hypothesis has_barcode : sh !! "barcode" = Some (VStr bc).
Hypothesis matching : cs !! bc = Some colli.

Lemma find_colli_matching : find_colli sh (VDict d) = Ok colli.
Proof.
  unfold find_colli. rewrite (truthy_dict_lookup _ _ _ has_colli). simpl.
  rewrite has_colli. rewrite bool_decide_true by eauto. simpl.
  rewrite has_barcode. simpl. by rewrite matching.
Qed.

Lemma run_transform_matching :
  run api (transform_shipment (VDict sh)) =
  raise_UpdateFailed (fields ← planned_fields sh colli; build_package sh colli fields).
Proof.
  rewrite run_transform_under_way, answer. simpl.
  unfold reconcile. by rewrite find_colli_matching.
Qed.

End Matching.

End UnderWay.

(** ** Delivered shipments *)

(** C2.  A shipment whose delivered flag is set gives, without any
    track-and-trace request (the coroutine finishes without waiting, whatever
    the carrier would answer), a Package that carries the flag, the fixed
    message "Pakket is bezorgd" and none of the planned/expected fields. *)
Theorem transform_shipment_delivered (api : value -> result value)
    (sh : gmap string value) :
  truthy (shipment_get sh "delivered") = true ->
  exists p,
    transform_shipment (VDict sh) = Done (Ok p) /\
    run api (transform_shipment (VDict sh)) = Ok p /\
    requests api (transform_shipment (VDict sh)) = [] /\
    delivered p = shipment_get sh "delivered" /\
    truthy (delivered p) = true /\
    status_message p = VStr "Pakket is bezorgd" /\
    planned_date p = None /\ planned_from p = None /\
    planned_to p = None /\ expected_datetime p = None.
Proof.
  intros Hd. exists (delivered_package sh).
  assert (transform_shipment (VDict sh) = Done (Ok (delivered_package sh))) as ->.
  { unfold transform_shipment. by rewrite Hd. }
  simpl. by repeat split.
Qed.

Lemma transform_shipment_delivered_witness :
  exists p,
    transform_shipment (VDict parcel_delivered) = Done (Ok p) /\
    run (fun _ => Raise RequestException) (transform_shipment (VDict parcel_delivered)) = Ok p /\
    requests (fun _ => Raise RequestException) (transform_shipment (VDict parcel_delivered)) = [] /\
    delivered p = shipment_get parcel_delivered "delivered" /\
    truthy (delivered p) = true /\
    status_message p = VStr "Pakket is bezorgd" /\
    planned_date p = None /\ planned_from p = None /\
    planned_to p = None /\ expected_datetime p = None.
Proof.
  apply (transform_shipment_delivered (fun _ => Raise RequestException) parcel_delivered).
  vm_compute. reflexivity.
Defined.

(** ** Shipments under way with a matching colli *)

Lemma field_truthy_dict x k :
  truthy (field x k) = true -> exists c v, x = VDict c /\ c !! k = Some v /\ field x k = v.
Proof.
  destruct x as [| | | | | |c]; simpl; try done.
  unfold field, field_or. destruct (c !! k) as [v|] eqn:Hk; simpl; [eauto|done].
Qed.

Lemma raise_UpdateFailed_Ok {A} (r : result A) a :
  raise_UpdateFailed r = Ok a <-> r = Ok a.
Proof. destruct r as [|[]]; simpl; split; congruence. Qed.

Lemma bind_Ok {A B} (r : result A) (f : A -> result B) b :
  (r ≫= f) = Ok b <-> exists a, r = Ok a /\ f a = Ok b.
Proof.
  destruct r as [a|e]; simpl; split.
  - eauto.
  - by intros (a' & [= <-] & Hf).
  - done.
  - by intros (a' & [=] & _).
Qed.

(** Line 124 asks [colli] for its [get]: a Package is built from a mapping
    only. *)
Lemma build_package_Ok sh colli fields p :
  build_package sh colli fields = Ok p -> isinstance_dict colli = true.
Proof.
  destruct fields as [[[[pd pf] pt] ed] sm]. unfold build_package.
  by destruct colli.
Qed.

(** C4.  When the matching colli carries route information, a returned
    Package has its planned delivery time, planned window start and end and
    expected delivery time from the route information (plannedDeliveryTime,
    plannedDeliveryTimeWindow.startDateTime, plannedDeliveryTimeWindow.endDateTime,
    expectedDeliveryTime); and a Package is returned exactly when the route
    information is a mapping and the window and the status phase, where
    present, are mappings. *)
Theorem transform_shipment_route_information (api : value -> result value)
    (sh d cs : gmap string value) (k : value) (bc : string) (colli ri : value) :
  truthy (shipment_get sh "delivered") = false ->
  sh !! "key" = Some k ->
  api k = Ok (VDict d) ->
  d !! "colli" = Some (VDict cs) ->
  sh !! "barcode" = Some (VStr bc) ->
  cs !! bc = Some colli ->
  field colli "routeInformation" = ri ->
  truthy ri = true ->
  (forall p, run api (transform_shipment (VDict sh)) = Ok p ->
     planned_date p = Some (field ri "plannedDeliveryTime") /\
     planned_from p = Some (field (field ri "plannedDeliveryTimeWindow") "startDateTime") /\
     planned_to p = Some (field (field ri "plannedDeliveryTimeWindow") "endDateTime") /\
     expected_datetime p = Some (field ri "expectedDeliveryTime")) /\
  ((exists p, run api (transform_shipment (VDict sh)) = Ok p) <->
     isinstance_dict ri = true /\
     isinstance_dict (field_or (VDict ∅) ri "plannedDeliveryTimeWindow") = true /\
     isinstance_dict (field_or (VDict ∅) colli "statusPhase") = true).
Proof.
  intros Hnd Hkey Hapi Hcolli Hbar Hmatch Hri Hroute.
  rewrite (run_transform_matching api sh k Hnd Hkey d cs bc colli Hapi Hcolli Hbar Hmatch).
  subst ri. destruct (field_truthy_dict _ _ Hroute) as (c & ri & -> & Hc & Hf).
  rewrite Hf in *. clear Hf.
  unfold planned_fields, build_package.
  rewrite (truthy_dict_lookup _ _ _ Hc). simpl. rewrite Hc. simpl. rewrite Hroute.
  destruct ri as [| | | | | |r]; simpl;
    try (split; [by intros p [=]|split; [by intros [p [=]]|by intros [[=] _]]]).
  unfold field, field_or.
  destruct (r !! "plannedDeliveryTimeWindow") as [w|] eqn:Hw; simpl.
  - destruct w as [| | | | | |w]; simpl;
      try (split; [by intros p [=]|split; [by intros [p [=]]|by intros (_ & [=] & _)]]).
    destruct (c !! "statusPhase") as [sp|] eqn:Hsp; simpl.
    + destruct sp as [| | | | | |sp]; simpl;
        try (split; [by intros p [=]|split; [by intros [p [=]]|by intros (_ & _ & [=])]]).
      split; [by intros p [= <-]|]. split; [done|eauto].
    + split; [by intros p [= <-]|]. split; [done|eauto].
  - destruct (c !! "statusPhase") as [sp|] eqn:Hsp; simpl.
    + destruct sp as [| | | | | |sp]; simpl;
        try (split; [by intros p [=]|split; [by intros [p [=]]|by intros (_ & _ & [=])]]).
      split; [by intros p [= <-]|]. split; [done|eauto].
    + split; [by intros p [= <-]|]. split; [done|eauto].
Qed.

Lemma transform_shipment_route_information_witness :
  (forall p, run (answers (answer_of colli_on_route)) (transform_shipment (VDict parcel)) = Ok p ->
     planned_date p = Some (field route "plannedDeliveryTime") /\
     planned_from p = Some (field (field route "plannedDeliveryTimeWindow") "startDateTime") /\
     planned_to p = Some (field (field route "plannedDeliveryTimeWindow") "endDateTime") /\
     expected_datetime p = Some (field route "expectedDeliveryTime")) /\
  ((exists p, run (answers (answer_of colli_on_route)) (transform_shipment (VDict parcel)) = Ok p) <->
     isinstance_dict route = true /\
     isinstance_dict (field_or (VDict ∅) route "plannedDeliveryTimeWindow") = true /\
     isinstance_dict (field_or (VDict ∅) colli_on_route "statusPhase") = true).
Proof.
  apply (transform_shipment_route_information (answers (answer_of colli_on_route))
           parcel (list_to_map [("colli", dict [("3SABCD", colli_on_route)])])
           (list_to_map [("3SABCD", colli_on_route)]) (VStr "K1") "3SABCD"
           colli_on_route route); vm_compute; reflexivity.
Defined.

(** C5.  When the matching colli carries no route information, a returned
    Package has its planned fields from the shipment's own
    deliveryWindowFrom/To (None where the shipment has none) and no expected
    delivery time; and a Package is returned exactly when the colli is a
    mapping whose status phase, where present, is a mapping. *)
Theorem transform_shipment_no_route_information (api : value -> result value)
    (sh d cs : gmap string value) (k : value) (bc : string) (colli : value) :
  truthy (field (VDict sh) "delivered") = false ->
  sh !! "key" = Some k ->
  api k = Ok (VDict d) ->
  d !! "colli" = Some (VDict cs) ->
  sh !! "barcode" = Some (VStr bc) ->
  cs !! bc = Some colli ->
  truthy (field colli "routeInformation") = false ->
  (forall p, run api (transform_shipment (VDict sh)) = Ok p ->
     planned_date p = Some (field (VDict sh) "deliveryWindowFrom") /\
     planned_from p = Some (field (VDict sh) "deliveryWindowFrom") /\
     planned_to p = Some (field (VDict sh) "deliveryWindowTo") /\
     expected_datetime p = Some VNone) /\
  (forall window_from window_to p,
     sh !! "deliveryWindowFrom" = Some window_from ->
     sh !! "deliveryWindowTo" = Some window_to ->
     run api (transform_shipment (VDict sh)) = Ok p ->
     planned_from p = Some window_from /\ planned_to p = Some window_to) /\
  ((exists p, run api (transform_shipment (VDict sh)) = Ok p) <->
     isinstance_dict colli = true /\
     isinstance_dict (field_or (VDict ∅) colli "statusPhase") = true).
Proof.
  intros Hnd Hkey Hapi Hcolli Hbar Hmatch Hroute.
  change (truthy (shipment_get sh "delivered") = false) in Hnd.
  assert ((forall p, run api (transform_shipment (VDict sh)) = Ok p ->
             planned_date p = Some (shipment_get sh "deliveryWindowFrom") /\
             planned_from p = Some (shipment_get sh "deliveryWindowFrom") /\
             planned_to p = Some (shipment_get sh "deliveryWindowTo") /\
             expected_datetime p = Some VNone) /\
          ((exists p, run api (transform_shipment (VDict sh)) = Ok p) <->
             isinstance_dict colli = true /\
             isinstance_dict (field_or (VDict ∅) colli "statusPhase") = true))
    as [Hfields Hreturns].
  { rewrite (run_transform_matching api sh k Hnd Hkey d cs bc colli Hapi Hcolli Hbar Hmatch).
    clear Hnd Hkey Hapi Hcolli Hbar Hmatch.
    destruct (isinstance_dict colli) eqn:Hdict.
    - destruct colli as [| | | | | |c]; try done. clear Hdict.
      unfold planned_fields, build_package.
      unfold field, field_or in Hroute |- *. simpl py_get.
      destruct (truthy (VDict c)); simpl; rewrite ?Hroute;
        (destruct (c !! "statusPhase") as [sp|] eqn:Hsp; simpl;
         [destruct sp as [| | | | | |sp]; simpl;
            try (split; [by intros p [=]|split; [by intros [p [=]]|by intros (_ & [=])]])|];
         (split; [by intros p [= <-]|]; split; [done|eauto])).
    - assert (forall p, raise_UpdateFailed
                (fields ← planned_fields sh colli; build_package sh colli fields) <> Ok p)
        as Hno.
      { intros p Hp. apply raise_UpdateFailed_Ok, bind_Ok in Hp as (f & _ & Hp).
        apply build_package_Ok in Hp. congruence. }
      split; [by intros p Hp%Hno|]. split; [by intros [p Hp%Hno]|by intros [[=] _]]. }
  split; [exact Hfields|]. split; [|exact Hreturns].
  intros window_from window_to p Hfrom Hto Hp.
  destruct (Hfields p Hp) as (_ & Hpf & Hpt & _).
  unfold shipment_get in Hpf, Hpt. rewrite Hfrom in Hpf. rewrite Hto in Hpt.
  done.
Qed.

Lemma transform_shipment_no_route_information_witness :
  exists p,
    run (answers (answer_of colli_sorting)) (transform_shipment (VDict parcel)) = Ok p /\
    planned_date p = Some (VStr "2024-05-01T10:00") /\
    planned_from p = Some (VStr "2024-05-01T10:00") /\
    planned_to p = Some (VStr "2024-05-01T12:00") /\
    expected_datetime p = Some VNone.
Proof.
  destruct (transform_shipment_no_route_information (answers (answer_of colli_sorting))
              parcel (list_to_map [("colli", dict [("3SABCD", colli_sorting)])])
              (list_to_map [("3SABCD", colli_sorting)]) (VStr "K1") "3SABCD"
              colli_sorting) as (Hfields & Hwindow & Hreturns);
    try (vm_compute; reflexivity).
  assert (isinstance_dict colli_sorting = true /\
          isinstance_dict (field_or (VDict ∅) colli_sorting "statusPhase") = true)
    as Hshape by (split; vm_compute; reflexivity).
  destruct (proj2 Hreturns Hshape) as [p Hp].
  exists p. split; [exact Hp|].
  destruct (Hfields p Hp) as (Hpd & _ & _ & Hed).
  assert (parcel !! "deliveryWindowFrom" = Some (VStr "2024-05-01T10:00")) as Hfrom
    by (vm_compute; reflexivity).
  assert (parcel !! "deliveryWindowTo" = Some (VStr "2024-05-01T12:00")) as Hto
    by (vm_compute; reflexivity).
  destruct (Hwindow _ _ p Hfrom Hto Hp) as [Hpf Hpt].
  split; [|split; [exact Hpf|split; [exact Hpt|exact Hed]]].
  rewrite Hpd. unfold field, field_or. by rewrite Hfrom.
Defined.

(** What line 124 makes of the status phase of a colli that is a mapping,
    when a Package comes back at all. *)
Lemma build_package_status_message sh colli fields p :
  build_package sh colli fields = Ok p ->
  status_message p =
    field_or (VStr "Unknown") (field_or (VDict ∅) colli "statusPhase") "message".
Proof.
  destruct fields as [[[[pd pf] pt] ed] sm]. unfold build_package.
  destruct colli as [| | | | | |c]; try done. simpl.
  destruct (default (VDict ∅) (c !! "statusPhase")) as [| | | | | |sp]; try done.
  simpl. by intros [= <-].
Qed.

(** ** Shipments under way without a colli *)

(** No colli for the shipment: lines 112-117 prepare the fallback, and
    line 124 then asks [None] for its [get]. *)
Lemma transform_shipment_without_colli (api : value -> result value)
    (sh : gmap string value) (k details : value) :
  truthy (shipment_get sh "delivered") = false ->
  sh !! "key" = Some k ->
  api k = Ok details ->
  find_colli sh details = Ok VNone ->
  planned_fields sh VNone =
    Ok (shipment_get sh "deliveryWindowFrom", shipment_get sh "deliveryWindowFrom",
        shipment_get sh "deliveryWindowTo", VNone, VStr "Unknown") /\
  run api (transform_shipment (VDict sh)) = Raise AttributeError.
Proof.
  intros Hnd Hkey Hapi Hfind. split; [done|].
  rewrite (run_transform_under_way api sh k Hnd Hkey), Hapi. simpl.
  unfold reconcile. by rewrite Hfind.
Qed.

(** C1.  The code at the three kinds of answer without a colli for the
    parcel (empty answer, answer without the 'colli' key, no entry for the
    barcode): the fallback fields and the message "Unknown" are prepared, but
    the coroutine ends with [AttributeError], and so does the polling cycle
    that lists the parcel. *)
Theorem transform_shipment_no_colli_raises :
  planned_fields parcel VNone =
    Ok (VStr "2024-05-01T10:00", VStr "2024-05-01T10:00", VStr "2024-05-01T12:00",
        VNone, VStr "Unknown") /\
  run (answers (VDict ∅)) (transform_shipment (VDict parcel)) = Raise AttributeError /\
  run (answers (dict [("status", VStr "ok")])) (transform_shipment (VDict parcel))
    = Raise AttributeError /\
  run (answers (dict [("colli", dict [("3SOTHER", colli_sorting)])]))
      (transform_shipment (VDict parcel))
    = Raise AttributeError /\
  possible (_async_update_data (cycle_of [VDict parcel] [] (answers (VDict ∅))))
    = [Raise AttributeError].
Proof. repeat split; vm_compute; reflexivity. Qed.

(** C3.  The code at a colli whose status phase is present but is no
    mapping ([null], or a plain string): line 110 settles on "Unknown", but
    line 124 asks the status phase for its [get] and the coroutine ends with
    [AttributeError]. *)
Theorem status_phase_not_a_mapping_raises :
  planned_fields parcel colli_null_phase =
    Ok (VStr "2024-05-01T10:00", VStr "2024-05-01T10:00", VStr "2024-05-01T12:00",
        VNone, VStr "Unknown") /\
  run (answers (answer_of colli_null_phase)) (transform_shipment (VDict parcel))
    = Raise AttributeError /\
  run (answers (answer_of colli_text_phase)) (transform_shipment (VDict parcel))
    = Raise AttributeError.
Proof. repeat split; vm_compute; reflexivity. Qed.

(** Where the status phase is a mapping or is missing, the message of a
    returned Package is the one of the claim. *)
Lemma transform_shipment_status_message (api : value -> result value)
    (sh d cs : gmap string value) (k : value) (bc : string) (colli : value) p :
  truthy (shipment_get sh "delivered") = false ->
  sh !! "key" = Some k ->
  api k = Ok (VDict d) ->
  d !! "colli" = Some (VDict cs) ->
  sh !! "barcode" = Some (VStr bc) ->
  cs !! bc = Some colli ->
  run api (transform_shipment (VDict sh)) = Ok p ->
  status_message p =
    field_or (VStr "Unknown") (field_or (VDict ∅) colli "statusPhase") "message".
Proof.
  intros Hnd Hkey Hapi Hcolli Hbar Hmatch.
  rewrite (run_transform_matching api sh k Hnd Hkey d cs bc colli Hapi Hcolli Hbar Hmatch).
  intros (f & _ & Hp)%raise_UpdateFailed_Ok%bind_Ok.
  by eapply build_package_status_message.
Qed.

(** ** The polling cycle *)

Lemma elem_of_outcomes_bind {A B} (m : outcomes A) (f : A -> outcomes B) r :
  r ∈ possible (m ≫= f) <->
  exists r1, r1 ∈ possible m /\
    match r1 with
    | Ok a => r ∈ possible (f a)
    | Raise e => r = Raise e
    end.
Proof.
  unfold mbind, outcomes_bind. simpl. rewrite list_elem_of_In, in_flat_map.
  split; intros (r1 & Hr1 & Hr); exists r1.
  - apply list_elem_of_In in Hr1. split; [done|].
    destruct r1; [by apply list_elem_of_In|]. by destruct Hr as [<-|[]].
  - apply list_elem_of_In in Hr1. split; [done|].
    destruct r1; [by apply list_elem_of_In|]. by left.
Qed.

Lemma elem_of_only_bind {A B} (r0 : result A) (f : A -> outcomes B) r :
  r ∈ possible (only r0 ≫= f) <->
  match r0 with
  | Ok a => r ∈ possible (f a)
  | Raise e => r = Raise e
  end.
Proof.
  rewrite elem_of_outcomes_bind. unfold only. simpl. split.
  - by intros (r1 & ->%list_elem_of_singleton & Hr).
  - intros Hr. exists r0. by rewrite list_elem_of_singleton.
Qed.

Lemma first_immediate_raise_Some {A} api (ts : list (task A)) e :
  first_immediate_raise ts = Some e -> exists t, t ∈ ts /\ run api t = Raise e.
Proof.
  induction ts as [|t ts IH]; [done|]. simpl.
  destruct t as [[a|e']|key k].
  - intros (t' & Ht' & Hrun)%IH. exists t'. split; [by right|done].
  - intros [= ->]. exists (Done (Raise e)). split; [by left|done].
  - intros (t' & Ht' & Hrun)%IH. exists t'. split; [by right|done].
Qed.

Lemma all_ok_Some {A} (rs : list (result A)) xs :
  all_ok rs = Some xs <-> rs = Ok <$> xs.
Proof.
  revert xs. induction rs as [|[a|e] rs IH]; intros xs; simpl.
  - split; [by intros [= <-]|]. by destruct xs.
  - destruct (all_ok rs) as [ys|] eqn:Hys; simpl.
    + split.
      * intros [= <-]. simpl. f_equal. by apply IH.
      * destruct xs as [|x xs]; [done|]. simpl. intros [= -> Hrs].
        apply IH in Hrs. by injection Hrs as ->.
    + split; [done|]. destruct xs as [|x xs]; [done|]. simpl.
      intros [= -> Hrs]. by apply IH in Hrs.
  - split; [done|]. by destruct xs.
Qed.

Lemma elem_of_raised {A} (rs : list (result A)) e :
  e ∈ raised rs <-> Raise e ∈ rs.
Proof.
  induction rs as [|[a|e'] rs IH]; simpl.
  - by rewrite !elem_of_nil.
  - rewrite IH, elem_of_cons. split; [by right|by intros [[=]|?]].
  - rewrite !elem_of_cons, IH. split; [intros [->|?]|intros [[= ->]|?]]; auto.
Qed.


(** What [gather] can report: all results, or the exception of one of the
    coroutines that raise. *)
Lemma gather_cases {A} api (ts : list (task A)) r :
  r ∈ possible (gather api ts) ->
  (exists xs, r = Ok xs /\ run api <$> ts = Ok <$> xs) \/
  (exists e t, r = Raise e /\ t ∈ ts /\ run api t = Raise e).
Proof.
  unfold gather. destruct (first_immediate_raise ts) as [e|] eqn:Himm.
  - simpl. intros ->%list_elem_of_singleton. right.
    destruct (first_immediate_raise_Some api _ _ Himm) as (t & Ht & Hrun). eauto.
  - destruct (all_ok (run api <$> ts)) as [xs|] eqn:Hall; simpl.
    + intros ->%list_elem_of_singleton. left. exists xs. by apply all_ok_Some in Hall.
    + intros (e & -> & He)%list_elem_of_fmap. right.
      apply elem_of_raised, list_elem_of_fmap in He as (t & Hrun & Ht). eauto.
Qed.


(** Once a coroutine of a [gather] raises, the [gather] raises. *)
Lemma gather_raises {A} api (ts : list (task A)) t e r :
  t ∈ ts -> run api t = Raise e ->
  r ∈ possible (gather api ts) ->
  exists e', r = Raise e'.
Proof.
  intros Ht Hrun [(xs & -> & Hxs)|(e' & t' & -> & _)]%gather_cases; [|eauto].
  assert (run api t ∈ run api <$> ts) as Hin by (apply list_elem_of_fmap; eauto).
  rewrite Hxs, Hrun in Hin. by apply list_elem_of_fmap in Hin as (x & [=] & _).
Qed.


Lemma possible_except {A} (m : outcomes A) :
  possible (outcomes_except_RequestException m) = raise_UpdateFailed <$> possible m.
Proof. done. Qed.



(** The data of a cycle that succeeds has both keys the sensors read. *)
Lemma _async_update_data_keys (w : Carrier) (data : gmap string (list Package)) :
  Ok data ∈ possible (_async_update_data w) ->
  is_Some (data !! "receiver") /\ is_Some (data !! "sender").
Proof.
  unfold _async_update_data. rewrite possible_except.
  intros (r0 & Hr0 & Hin)%list_elem_of_fmap.
  symmetry in Hr0. apply (proj1 (raise_UpdateFailed_Ok _ _)) in Hr0. subst r0.
  rewrite elem_of_only_bind in Hin. destruct (check_and_refresh_token w); [|done].
  rewrite elem_of_only_bind in Hin. destruct (graphql_shipments w); [|done].
  rewrite elem_of_only_bind in Hin. destruct (tracked_shipments _ _); [|done].
  apply elem_of_outcomes_bind in Hin as ([receiver|e] & _ & Hin); [|done].
  rewrite elem_of_only_bind in Hin. destruct (tracked_shipments _ _); [|done].
  apply elem_of_outcomes_bind in Hin as ([sender|e] & _ & Hin); [|done].
  apply list_elem_of_singleton in Hin. injection Hin as ->.
  split.
  - rewrite lookup_insert_ne by done. rewrite lookup_insert_eq. eauto.
  - rewrite lookup_insert_eq. eauto.
Qed.

(** ** The sensors *)

Lemma sort_packages_spec (l : list Package) :
  forall (attrs : gmap string (list Package)) dl el,
    attrs !! "delivered" = Some dl ->
    attrs !! "enroute" = Some el ->
    sort_packages attrs l =
      Ok (<["enroute" := (el ++ under_way l)%list]>
            (<["delivered" := (dl ++ arrived l)%list]> attrs)).
Proof.
  induction l as [|p l IH]; intros attrs dl el Hd He; simpl.
  - rewrite !app_nil_r. f_equal. by rewrite (insert_id _ _ _ Hd), (insert_id _ _ _ He).
  - destruct (truthy (delivered p)) eqn:Hp; simpl.
    + unfold attr_append, attr_index. rewrite Hd. simpl.
      rewrite (IH _ (dl ++ [p])%list el).
      * by rewrite insert_insert_eq, <- app_assoc.
      * by rewrite lookup_insert_eq.
      * by rewrite lookup_insert_ne.
    + unfold attr_append, attr_index. rewrite He. simpl.
      rewrite (IH _ dl (el ++ [p])%list).
      * f_equal. rewrite (insert_insert_ne _ "delivered" "enroute") by done.
        by rewrite insert_insert_eq, <- app_assoc.
      * by rewrite lookup_insert_ne.
      * by rewrite lookup_insert_eq.
Qed.

(** A refresh always goes through, and what it leaves depends on the data
    and on the untouched attributes only. *)
Lemma handle_coordinator_data_spec (data : gmap string (list Package))
    (self : PostNLDelivery) (l : list Package) :
  data !! role_of self = Some l ->
  handle_coordinator_data data self =
    Ok {| _attributes :=
            <["enroute" := under_way l]> (<["delivered" := arrived l]> (_attributes self));
          _state := Some (length (under_way l));
          receiver := receiver self |}.
Proof.
  intros Hl. unfold handle_coordinator_data.
  assert ((if receiver self then attr_index data "receiver" else attr_index data "sender")
          = Ok l) as ->.
  { unfold role_of, attr_index in *. destruct (receiver self); by rewrite Hl. }
  simpl. rewrite (sort_packages_spec l _ [] []).
  - simpl. unfold attr_index. rewrite lookup_insert_eq. simpl. do 2 f_equal.
    apply map_eq. intros i.
    destruct (decide (i = "enroute")) as [->|Hne1]; [by rewrite !lookup_insert_eq|].
    destruct (decide (i = "delivered")) as [->|Hne2].
    + rewrite !(lookup_insert_ne _ "enroute") by done. by rewrite !lookup_insert_eq.
    + by rewrite !lookup_insert_ne by done.
  - by rewrite lookup_insert_ne, lookup_insert_eq.
  - by rewrite lookup_insert_eq.
Qed.

Lemma under_way_delivered_false (l : list Package) :
  Forall (fun p => exists b, delivered p = VBool b) l ->
  under_way l = List.filter delivered_false l.
Proof.
  induction 1 as [|p l [b Hb] _ IH]; [done|].
  unfold under_way in *. simpl. rewrite IH.
  replace (delivered_false p) with (negb (truthy (delivered p))); [done|].
  unfold delivered_false. rewrite Hb. by destruct b.
Qed.

(** C6.  After a refresh the state of the receiver sensor, and of the sender
    sensor, is the number of packages of its list whose delivered flag is not
    set (the flag being [False], where the flags are booleans). *)
Theorem sensor_state_counts_under_way (data : gmap string (list Package))
    (self : PostNLDelivery) (l : list Package) :
  data !! (if receiver self then "receiver" else "sender") = Some l ->
  exists self',
    handle_coordinator_data data self = Ok self' /\
    receiver self' = receiver self /\
    _state self' =
      Some (length (List.filter (fun p => negb (truthy (delivered p))) l)) /\
    (Forall (fun p => exists b, delivered p = VBool b) l ->
     _state self' = Some (length (List.filter delivered_false l))).
Proof.
  intros Hl. eexists. split; [by apply handle_coordinator_data_spec|].
  simpl. repeat split. intros Hflags. by rewrite (under_way_delivered_false l Hflags).
Qed.

Lemma sensor_state_counts_under_way_witness :
  (exists self',
    handle_coordinator_data sample_data (new_sensor true) = Ok self' /\
    receiver self' = true /\
    _state self' = Some 2%nat /\
    (Forall (fun p => exists b, delivered p = VBool b)
       [package_arrived; package_under_way; package_under_way] ->
     _state self' = Some 2%nat)) /\
  (exists self',
    handle_coordinator_data sample_data (new_sensor false) = Ok self' /\
    receiver self' = false /\
    _state self' = Some 0%nat /\
    (Forall (fun p => exists b, delivered p = VBool b) [package_arrived] ->
     _state self' = Some 0%nat)).
Proof.
  split.
  - apply (sensor_state_counts_under_way sample_data (new_sensor true)
             [package_arrived; package_under_way; package_under_way]).
    vm_compute. reflexivity.
  - apply (sensor_state_counts_under_way sample_data (new_sensor false)
             [package_arrived]).
    vm_compute. reflexivity.
Defined.

Lemma cleared_attributes (attrs : gmap string (list Package)) dl el :
  <["enroute" := []]> (<["delivered" := []]>
     (<["enroute" := el]> (<["delivered" := dl]> attrs)))
  = <["enroute" := []]> (<["delivered" := []]> attrs).
Proof.
  apply map_eq. intros i.
  destruct (decide (i = "enroute")) as [->|Hne1]; [by rewrite !lookup_insert_eq|].
  destruct (decide (i = "delivered")) as [->|Hne2].
  - rewrite !(lookup_insert_ne _ "enroute") by done. by rewrite !lookup_insert_eq.
  - by rewrite !lookup_insert_ne by done.
Qed.

(** What a refresh computes does not depend on the lists an earlier refresh
    left in the attributes. *)
Lemma handle_coordinator_data_forgets (data : gmap string (list Package))
    attrs dl el st st' r :
  handle_coordinator_data data
    {| _attributes := <["enroute" := el]> (<["delivered" := dl]> attrs);
       _state := st; receiver := r |}
  = handle_coordinator_data data
      {| _attributes := attrs; _state := st'; receiver := r |}.
Proof. unfold handle_coordinator_data. simpl. by rewrite cleared_attributes. Qed.

(** C10.  A refresh on given coordinator data gives the same sensor however
    often it is repeated: the two lists are emptied first, so the attributes
    hold the packages of the data once, and a later refresh on any data gives
    what it would have given without the earlier one. *)
Theorem handle_coordinator_data_idempotent (data : gmap string (list Package))
    (self : PostNLDelivery) (l : list Package) :
  data !! (if receiver self then "receiver" else "sender") = Some l ->
  exists once,
    handle_coordinator_data data self = Ok once /\
    handle_coordinator_data data once = Ok once /\
    (forall n, refresh_times (S n) data self = Ok once) /\
    _attributes once !! "delivered" = Some (arrived l) /\
    _attributes once !! "enroute" = Some (under_way l) /\
    _state once = Some (length (under_way l)) /\
    (forall data', handle_coordinator_data data' once = handle_coordinator_data data' self).
Proof.
  intros Hl. eexists.
  split; [by apply handle_coordinator_data_spec|].
  assert (forall data' : gmap string (list Package),
            handle_coordinator_data data'
              {| _attributes :=
                   <["enroute" := under_way l]>
                     (<["delivered" := arrived l]> (_attributes self));
                 _state := Some (length (under_way l));
                 receiver := receiver self |}
            = handle_coordinator_data data' self) as Hforget.
  { intros data'. rewrite (handle_coordinator_data_forgets _ _ _ _ _ (_state self)).
    by destruct self. }
  assert (handle_coordinator_data data
            {| _attributes :=
                 <["enroute" := under_way l]>
                   (<["delivered" := arrived l]> (_attributes self));
               _state := Some (length (under_way l));
               receiver := receiver self |}
          = Ok {| _attributes :=
                 <["enroute" := under_way l]>
                   (<["delivered" := arrived l]> (_attributes self));
               _state := Some (length (under_way l));
               receiver := receiver self |}) as Hagain.
  { rewrite Hforget. by apply handle_coordinator_data_spec. }
  split; [exact Hagain|]. split.
  - intros n. simpl. rewrite (handle_coordinator_data_spec data self l Hl). simpl.
    induction n as [|n IH]; [done|]. simpl. by rewrite Hagain.
  - simpl. split; [by rewrite lookup_insert_ne, lookup_insert_eq|].
    split; [by rewrite lookup_insert_eq|]. split; [done|exact Hforget].
Qed.

Lemma handle_coordinator_data_idempotent_witness :
  exists once,
    handle_coordinator_data sample_data (new_sensor true) = Ok once /\
    handle_coordinator_data sample_data once = Ok once /\
    (forall n, refresh_times (S n) sample_data (new_sensor true) = Ok once) /\
    _attributes once !! "delivered" = Some [package_arrived] /\
    _attributes once !! "enroute" = Some [package_under_way; package_under_way] /\
    _state once = Some 2%nat /\
    (forall data', handle_coordinator_data data' once
                   = handle_coordinator_data data' (new_sensor true)).
Proof.
  apply (handle_coordinator_data_idempotent sample_data (new_sensor true)
           [package_arrived; package_under_way; package_under_way]).
  vm_compute. reflexivity.
Defined.

(** ** The options flow *)

Section OptionsFlowProperties.

Variable int_of_str : string -> option Z.

(** What passes [vol.All(vol.Coerce(int), vol.Range(min=30))] is an integer
    that is at least 30. *)
Lemma validate_update_interval (x v : value) :
  validate int_of_str (All [Coerce_int; Range_min 30]) x = Some v ->
  exists z, v = VInt z /\ 30 <= z.
Proof.
  simpl. destruct (py_int int_of_str x) as [z|]; simpl; [|done].
  destruct (Z.ltb_spec z 30); [done|]. intros [= <-]. eauto.
Qed.

(** C9.  The form that the options step shows validates update_interval by
    coercion to an integer and a lower bound of 30: an integer passes if and
    only if it is at least 30, and passes unchanged; whatever is submitted,
    the options that get stored hold an integer update_interval of at
    least 30. *)
Theorem options_flow_update_interval_at_least_30 (options : gmap string value) :
  exists data_schema,
    async_step_init options None = show_form "init" data_schema /\
    schema_key data_schema = "update_interval" /\
    (forall z, (exists v, validate int_of_str (schema_validator data_schema) (VInt z) = Some v)
               <-> 30 <= z) /\
    (forall z, z < 30 ->
       validate int_of_str (schema_validator data_schema) (VInt z) = None) /\
    (forall z, 30 <= z ->
       validate int_of_str (schema_validator data_schema) (VInt z) = Some (VInt z)) /\
    (forall user_input stored,
       submit_options int_of_str options user_input = Some stored ->
       exists d z, stored = VDict d /\ d !! "update_interval" = Some (VInt z) /\ 30 <= z).
Proof.
  eexists. split; [reflexivity|]. simpl schema_key. simpl schema_validator.
  split; [done|].
  assert (forall z, z < 30 ->
            validate int_of_str (All [Coerce_int; Range_min 30]) (VInt z) = None)
    as Hlow.
  { intros z Hz. simpl. by destruct (Z.ltb_spec z 30); [|lia]. }
  assert (forall z, 30 <= z ->
            validate int_of_str (All [Coerce_int; Range_min 30]) (VInt z)
            = Some (VInt z)) as Hhigh.
  { intros z Hz. simpl. by destruct (Z.ltb_spec z 30); [lia|]. }
  split; [|split; [exact Hlow|split; [exact Hhigh|]]].
  - intros z. split.
    + intros [v Hv]. destruct (Z.lt_ge_cases z 30) as [Hz|Hz]; [|lia].
      by rewrite (Hlow z Hz) in Hv.
    + intros Hz. eexists. by apply Hhigh.
  - intros user_input stored. unfold submit_options, async_step_init, apply_schema.
    cbn [schema_key schema_default schema_validator].
    destruct user_input as [| | | | | |d]; try done.
    case_bool_decide; [|done].
    destruct (validate int_of_str _ _) as [v|] eqn:Hv; [|done].
    apply validate_update_interval in Hv as (z & -> & Hz).
    simpl. intros [= <-]. exists (<["update_interval" := VInt z]> d), z.
    by rewrite lookup_insert_eq.
Qed.

End OptionsFlowProperties.

(** ** The polling interval *)

(** The coordinator is set up with 90 seconds, whatever the options hold. *)
Lemma PostNLCoordinator_update_interval (hass : HomeAssistant) :
  update_interval (PostNLCoordinator hass) = 90.
Proof. reflexivity. Qed.

(** C8.  The code at an entry whose options hold update_interval = 300:
    the options flow accepts and stores the value, yet the coordinator polls
    every 90 seconds. *)
Theorem coordinator_ignores_update_interval :
  submit_options (fun _ => None) ∅ (dict [("update_interval", VInt 300)])
    = Some (dict [("update_interval", VInt 300)]) /\
  update_interval
    (PostNLCoordinator {| entry_options := {[ "update_interval" := VInt 300 ]} |}) = 90 /\
  update_interval
    (PostNLCoordinator {| entry_options := {[ "update_interval" := VInt 300 ]} |}) <> 300.
Proof. split; [vm_compute; reflexivity|]. split; [reflexivity|]. simpl. lia. Qed.

(** * Further properties of the code *)

(** ** transform_shipment: requests, errors, copied fields *)

(** X1.  The track-and-trace requests of a coroutine of [transform_shipment]:
    exactly one, for the shipment's key, when the shipment is a mapping that
    holds a key and whose delivered entry is missing or falsy; none for every
    other shipment.  The answers of the service make no difference. *)
Theorem transform_shipment_requests (api : value -> result value) (shipment : value) :
  (forall sh k,
     shipment = VDict sh ->
     truthy (default VNone (sh !! "delivered")) = false ->
     sh !! "key" = Some k ->
     requests api (transform_shipment shipment) = [k]) /\
  ((forall sh k,
      shipment = VDict sh ->
      truthy (default VNone (sh !! "delivered")) = false ->
      sh !! "key" <> Some k) ->
   requests api (transform_shipment shipment) = []).
Proof.
  split.
  - intros sh k -> Hd Hk. by apply requests_transform_under_way.
  - intros Hother. destruct shipment as [| | | | | |sh]; try done.
    destruct (truthy (default VNone (sh !! "delivered"))) eqn:Hd.
    + unfold transform_shipment, shipment_get. by rewrite Hd.
    + destruct (sh !! "key") as [k|] eqn:Hk.
      * by destruct (Hother sh k eq_refl Hd).
      * unfold transform_shipment, shipment_get. rewrite Hd. simpl. by rewrite Hk.
Qed.

Lemma transform_shipment_requests_witness :
  requests unreachable (transform_shipment (VDict parcel)) = [VStr "K1"] /\
  requests (answers (answer_of colli_on_route)) (transform_shipment (VDict parcel))
    = [VStr "K1"] /\
  requests unreachable (transform_shipment (VDict parcel_delivered)) = [] /\
  requests unreachable (transform_shipment (VDict parcel_without_key)) = [] /\
  requests unreachable (transform_shipment (VStr "3SABCD")) = [].
Proof.
  split; [|split; [|split; [|split]]].
  - apply (proj1 (transform_shipment_requests unreachable (VDict parcel)) parcel (VStr "K1"));
      vm_compute; reflexivity.
  - apply (proj1 (transform_shipment_requests (answers (answer_of colli_on_route))
                    (VDict parcel)) parcel (VStr "K1"));
      vm_compute; reflexivity.
  - apply (proj2 (transform_shipment_requests unreachable (VDict parcel_delivered))).
    intros sh k [= <-]. vm_compute. discriminate.
  - apply (proj2 (transform_shipment_requests unreachable (VDict parcel_without_key))).
    intros sh k [= <-] _. vm_compute. discriminate.
  - apply (proj2 (transform_shipment_requests unreachable (VStr "3SABCD"))).
    intros sh k. discriminate.
Defined.

(** X2.  When the track-and-trace request of a shipment under way raises,
    the coroutine raises [UpdateFailed] for a [RequestException] and the
    very same exception for anything else. *)
Theorem transform_shipment_request_error (api : value -> result value)
    (sh : gmap string value) (k : value) (e : exn) :
  truthy (shipment_get sh "delivered") = false ->
  sh !! "key" = Some k ->
  api k = Raise e ->
  (e = RequestException -> run api (transform_shipment (VDict sh)) = Raise UpdateFailed) /\
  (e <> RequestException -> run api (transform_shipment (VDict sh)) = Raise e).
Proof.
  intros Hnd Hkey Hapi. rewrite (run_transform_under_way api sh k Hnd Hkey), Hapi.
  split; [by intros ->|]. by destruct e.
Qed.

Lemma transform_shipment_request_error_witness :
  (ValueError = RequestException ->
   run (fun _ => Raise ValueError) (transform_shipment (VDict parcel)) = Raise UpdateFailed) /\
  (ValueError <> RequestException ->
   run (fun _ => Raise ValueError) (transform_shipment (VDict parcel)) = Raise ValueError).
Proof.
  apply (transform_shipment_request_error (fun _ => Raise ValueError) parcel (VStr "K1"));
    vm_compute; reflexivity.
Defined.

Lemma raise_UpdateFailed_not_RequestException {A} (r : result A) :
  raise_UpdateFailed r <> Raise RequestException.
Proof. by destruct r as [a|[]]. Qed.

(** X3.  Whatever the shipment and whatever the carrier does, a coroutine of
    [transform_shipment] never ends with a [RequestException]; nor does the
    update of a cycle. *)
Theorem RequestException_never_escapes :
  (forall api shipment,
     run api (transform_shipment shipment) <> Raise RequestException) /\
  (forall w r, r ∈ possible (_async_update_data w) -> r <> Raise RequestException).
Proof.
  split.
  - intros api [| | | | | |sh]; try done.
    unfold transform_shipment. rewrite run_except.
    apply raise_UpdateFailed_not_RequestException.
  - intros w r. unfold _async_update_data. rewrite possible_except.
    intros (r0 & -> & _)%list_elem_of_fmap.
    apply raise_UpdateFailed_not_RequestException.
Qed.

(** X4.  A shipment under way that has no 'key' ends with [KeyError] before
    anything is requested, although every other field is read with [get]. *)
Theorem transform_shipment_without_key (api : value -> result value)
    (sh : gmap string value) :
  truthy (shipment_get sh "delivered") = false ->
  sh !! "key" = None ->
  transform_shipment (VDict sh) = Done (Raise KeyError) /\
  run api (transform_shipment (VDict sh)) = Raise KeyError /\
  requests api (transform_shipment (VDict sh)) = [].
Proof.
  intros Hnd Hkey.
  assert (transform_shipment (VDict sh) = Done (Raise KeyError)) as ->; [|done].
  unfold transform_shipment. rewrite Hnd. simpl. by rewrite Hkey.
Qed.

Lemma transform_shipment_without_key_witness :
  transform_shipment (VDict parcel_without_key) = Done (Raise KeyError) /\
  run unreachable (transform_shipment (VDict parcel_without_key)) = Raise KeyError /\
  requests unreachable (transform_shipment (VDict parcel_without_key)) = [].
Proof.
  apply (transform_shipment_without_key unreachable parcel_without_key);
    vm_compute; reflexivity.
Defined.

Lemma build_package_identity sh colli fields p :
  build_package sh colli fields = Ok p ->
  key p = shipment_get sh "key" /\
  name p = shipment_get sh "title" /\
  url p = shipment_get sh "detailsUrl" /\
  shipment_type p = shipment_get sh "shipmentType" /\
  delivered p = shipment_get sh "delivered" /\
  delivery_date p = shipment_get sh "deliveredTimeStamp" /\
  delivery_address_type p = shipment_get sh "deliveryAddressType".
Proof.
  destruct fields as [[[[pd pf] pt] ed] sm]. unfold build_package.
  destruct (py_get colli "statusPhase" (VDict ∅)) as [sp|]; [|done]. simpl.
  destruct (py_get sp "message" (VStr "Unknown")) as [m|]; [|done]. simpl.
  by intros [= <-].
Qed.

(** What a coroutine of a mapping returns, if it returns: the Package of a
    delivered shipment, or one built after the request. *)
Lemma run_transform_Ok (api : value -> result value) (sh : gmap string value) p :
  run api (transform_shipment (VDict sh)) = Ok p ->
  (truthy (shipment_get sh "delivered") = true /\ p = delivered_package sh) \/
  (truthy (shipment_get sh "delivered") = false /\
   exists k details colli fields,
     sh !! "key" = Some k /\ api k = Ok details /\
     find_colli sh details = Ok colli /\
     planned_fields sh colli = Ok fields /\
     build_package sh colli fields = Ok p).
Proof.
  destruct (truthy (shipment_get sh "delivered")) eqn:Hd.
  - unfold transform_shipment. rewrite Hd. simpl. intros [= <-]. by left.
  - intros Hrun. right. split; [done|].
    destruct (sh !! "key") as [k|] eqn:Hk.
    + rewrite (run_transform_under_way api sh k Hd Hk) in Hrun.
      apply (proj1 (raise_UpdateFailed_Ok _ _)) in Hrun.
      apply (proj1 (bind_Ok _ _ _)) in Hrun as (details & Hapi & Hrec).
      unfold reconcile in Hrec.
      apply (proj1 (bind_Ok _ _ _)) in Hrec as (colli & Hfind & Hrec).
      apply (proj1 (bind_Ok _ _ _)) in Hrec as (fields & Hfields & Hbuild).
      exists k, details, colli, fields. done.
    + unfold transform_shipment in Hrun. rewrite Hd in Hrun. simpl in Hrun.
      by rewrite Hk in Hrun.
Qed.

(** X5.  Every Package that [transform_shipment] returns has its key, name,
    url, shipment type, delivered flag, delivery date and delivery address
    type from the shipment's key, title, detailsUrl, shipmentType, delivered,
    deliveredTimeStamp and deliveryAddressType: the value the shipment holds
    under that name, and None where it holds none. *)
Theorem transform_shipment_copies_shipment (api : value -> result value)
    (sh : gmap string value) (p : Package) :
  run api (transform_shipment (VDict sh)) = Ok p ->
  key p = default VNone (sh !! "key") /\
  name p = default VNone (sh !! "title") /\
  url p = default VNone (sh !! "detailsUrl") /\
  shipment_type p = default VNone (sh !! "shipmentType") /\
  delivered p = default VNone (sh !! "delivered") /\
  delivery_date p = default VNone (sh !! "deliveredTimeStamp") /\
  delivery_address_type p = default VNone (sh !! "deliveryAddressType").
Proof.
  intros [[_ ->]|[_ (k & details & colli & fields & _ & _ & _ & _ & Hbuild)]]%run_transform_Ok.
  - done.
  - by eapply build_package_identity.
Qed.

Lemma transform_shipment_copies_shipment_witness :
  exists p,
    run (answers (answer_of colli_on_route)) (transform_shipment (VDict parcel_complete))
      = Ok p /\
    key p = VStr "K7" /\
    name p = VStr "Fiets" /\
    url p = VStr "https://jouw.postnl.nl/track/K7" /\
    shipment_type p = VStr "Parcel" /\
    delivered p = VBool false /\
    delivery_date p = VStr "n/a" /\
    delivery_address_type p = VStr "Recipient".
Proof.
  assert (exists p, run (answers (answer_of colli_on_route))
                      (transform_shipment (VDict parcel_complete)) = Ok p) as [p Hp].
  { eexists. vm_compute. reflexivity. }
  exists p. split; [exact Hp|].
  exact (transform_shipment_copies_shipment (answers (answer_of colli_on_route))
           parcel_complete p Hp).
Defined.

(** The only way to a colli that is a mapping. *)
Lemma find_colli_dict (sh : gmap string value) (details : value) (c : gmap string value) :
  find_colli sh details = Ok (VDict c) ->
  exists d cs bc,
    details = VDict d /\ d !! "colli" = Some (VDict cs) /\
    sh !! "barcode" = Some (VStr bc) /\ cs !! bc = Some (VDict c).
Proof.
  unfold find_colli. destruct (truthy details); simpl; [|done].
  destruct (py_contains "colli" details) as [[|]|]; simpl; try done.
  destruct details as [| | | | | |d]; simpl; try done.
  destruct (d !! "colli") as [collis|] eqn:Hcollis; simpl; [|done].
  destruct collis as [| | | | | |cs]; simpl; try done.
  destruct (sh !! "barcode") as [barcode|] eqn:Hbar; simpl; [|done].
  destruct barcode as [| | | | bc | |]; simpl; try done.
  destruct (cs !! bc) as [colli|] eqn:Hbc; simpl; [|done].
  intros [= ->]. by exists d, cs, bc.
Qed.

(** X6.  A shipment under way yields a Package only if it has a key, the
    request for that key succeeds, and the answer is a mapping whose 'colli'
    is a mapping that holds, under the shipment's barcode (a string), a colli
    that is a mapping; every other answer ends in an exception. *)
Theorem transform_shipment_returns_only_on_match (api : value -> result value)
    (sh : gmap string value) (p : Package) :
  truthy (shipment_get sh "delivered") = false ->
  run api (transform_shipment (VDict sh)) = Ok p ->
  exists k d cs bc c,
    sh !! "key" = Some k /\
    api k = Ok (VDict d) /\
    d !! "colli" = Some (VDict cs) /\
    sh !! "barcode" = Some (VStr bc) /\
    cs !! bc = Some (VDict c).
Proof.
  intros Hnd [[Hd _]|[_ (k & details & colli & fields & Hk & Hapi & Hfind & _ & Hbuild)]]%run_transform_Ok.
  - congruence.
  - apply build_package_Ok in Hbuild.
    destruct colli as [| | | | | |c]; try done.
    apply find_colli_dict in Hfind as (d & cs & bc & -> & Hd & Hbar & Hbc).
    by exists k, d, cs, bc, c.
Qed.

Lemma transform_shipment_returns_only_on_match_witness :
  (exists p, run (answers (answer_of colli_sorting)) (transform_shipment (VDict parcel)) = Ok p) /\
  exists k d cs bc c,
    parcel !! "key" = Some k /\
    answers (answer_of colli_sorting) k = Ok (VDict d) /\
    d !! "colli" = Some (VDict cs) /\
    parcel !! "barcode" = Some (VStr bc) /\
    cs !! bc = Some (VDict c).
Proof.
  assert (exists p, run (answers (answer_of colli_sorting))
                      (transform_shipment (VDict parcel)) = Ok p) as [p Hp].
  { eexists. vm_compute. reflexivity. }
  split; [by exists p|].
  apply (transform_shipment_returns_only_on_match
           (answers (answer_of colli_sorting)) parcel p); [vm_compute; reflexivity|exact Hp].
Defined.

(** ** The polling cycle: what comes back *)

Lemma possible_only_bind {A B} (r0 : result A) (f : A -> outcomes B) :
  possible (only r0 ≫= f) =
  match r0 with
  | Ok a => possible (f a)
  | Raise e => [Raise e]
  end.
Proof. destruct r0; simpl; [apply app_nil_r|done]. Qed.

Lemma possible_bind_Ok {A B} (m : outcomes A) (f : A -> outcomes B) a :
  possible m = [Ok a] -> possible (m ≫= f) = possible (f a).
Proof.
  intros Hm. unfold mbind, outcomes_bind. simpl. rewrite Hm. simpl. apply app_nil_r.
Qed.

Lemma first_immediate_raise_None {A} api (ts : list (task A)) xs :
  Forall2 (fun t x => run api t = Ok x) ts xs -> first_immediate_raise ts = None.
Proof.
  induction 1 as [|t x ts xs Hrun _ IH]; [done|]. simpl.
  by destruct t as [[a|e]|key k].
Qed.

Lemma Forall2_run_fmap {A} api (ts : list (task A)) xs :
  Forall2 (fun t x => run api t = Ok x) ts xs <-> run api <$> ts = Ok <$> xs.
Proof.
  split.
  - induction 1 as [|t x ts xs Hrun _ IH]; [done|].
    rewrite !fmap_cons. by rewrite Hrun, IH.
  - revert xs. induction ts as [|t ts IH]; intros [|x xs]; try done.
    rewrite !fmap_cons. intros [= Hrun Hrest]. constructor; [done|by apply IH].
Qed.

(** A [gather] over coroutines that all succeed has one outcome, the results
    in argument order; and a [gather] that succeeds has all of them. *)
Lemma gather_all_Ok {A} api (ts : list (task A)) xs :
  Forall2 (fun t x => run api t = Ok x) ts xs ->
  possible (gather api ts) = [Ok xs].
Proof.
  intros Hall. unfold gather. rewrite (first_immediate_raise_None api ts xs Hall).
  apply (proj1 (Forall2_run_fmap _ _ _)) in Hall.
  apply (proj2 (all_ok_Some _ _)) in Hall. by rewrite Hall.
Qed.

Lemma gather_Ok_Forall2 {A} api (ts : list (task A)) xs :
  Ok xs ∈ possible (gather api ts) ->
  Forall2 (fun t x => run api t = Ok x) ts xs.
Proof.
  intros [(ys & [= <-] & Hrun)|(e & t & [=] & _)]%gather_cases.
  by apply Forall2_run_fmap.
Qed.

(** The cycle in which every coroutine succeeds. *)
Lemma update_data_all_Ok (w : Carrier) (shipments : value)
    (receiver_listed sender_listed : list value) (ps qs : list Package) :
  check_and_refresh_token w = Ok tt ->
  graphql_shipments w = Ok shipments ->
  tracked_shipments shipments "receiverShipments" = Ok receiver_listed ->
  tracked_shipments shipments "senderShipments" = Ok sender_listed ->
  Forall2 (fun s p => run (jouw_track_and_trace w) (transform_shipment s) = Ok p)
    receiver_listed ps ->
  Forall2 (fun s p => run (jouw_track_and_trace w) (transform_shipment s) = Ok p)
    sender_listed qs ->
  possible (_async_update_data w) =
    [Ok (<["sender" := qs]> (<["receiver" := ps]>
           ({[ "receiver" := []; "sender" := [] ]} : gmap string (list Package))))].
Proof.
  intros Hcheck Hg Hrl Hsl Hps Hqs.
  unfold _async_update_data. rewrite possible_except.
  rewrite possible_only_bind, Hcheck, possible_only_bind, Hg, possible_only_bind, Hrl.
  rewrite (possible_bind_Ok _ _ ps)
    by (apply gather_all_Ok; by apply Forall2_fmap_l).
  rewrite possible_only_bind, Hsl.
  rewrite (possible_bind_Ok _ _ qs)
    by (apply gather_all_Ok; by apply Forall2_fmap_l).
  done.
Qed.

Lemma cycle_data_lookup (ps qs : list Package) :
  let data := <["sender" := qs]> (<["receiver" := ps]>
                ({[ "receiver" := []; "sender" := [] ]} : gmap string (list Package))) in
  data !! "receiver" = Some ps /\ data !! "sender" = Some qs /\
  forall k, k <> "receiver" -> k <> "sender" -> data !! k = None.
Proof.
  simpl. split; [by rewrite lookup_insert_ne, lookup_insert_eq|].
  split; [by rewrite lookup_insert_eq|].
  intros k Hr Hs. rewrite !lookup_insert_ne by done. by rewrite lookup_singleton_ne.
Qed.

(** X7.  The data of a cycle that succeeds holds, under 'receiver' and under
    'sender', one Package for every shipment that the shipment list names in
    that role, in the order of the list: the Package that the shipment's
    coroutine returns. *)
Theorem cycle_data_one_package_per_shipment (w : Carrier)
    (data : gmap string (list Package)) :
  Ok data ∈ possible (_async_update_data w) ->
  exists shipments receiver_listed sender_listed ps qs,
    graphql_shipments w = Ok shipments /\
    tracked_shipments shipments "receiverShipments" = Ok receiver_listed /\
    tracked_shipments shipments "senderShipments" = Ok sender_listed /\
    data !! "receiver" = Some ps /\ data !! "sender" = Some qs /\
    length ps = length receiver_listed /\ length qs = length sender_listed /\
    Forall2 (fun s p => run (jouw_track_and_trace w) (transform_shipment s) = Ok p)
      receiver_listed ps /\
    Forall2 (fun s p => run (jouw_track_and_trace w) (transform_shipment s) = Ok p)
      sender_listed qs.
Proof.
  unfold _async_update_data. rewrite possible_except.
  intros (r0 & Hr0 & Hin)%list_elem_of_fmap.
  symmetry in Hr0. apply (proj1 (raise_UpdateFailed_Ok _ _)) in Hr0. subst r0.
  rewrite elem_of_only_bind in Hin. destruct (check_and_refresh_token w); [|done].
  rewrite elem_of_only_bind in Hin.
  destruct (graphql_shipments w) as [shipments|]; [|done].
  rewrite elem_of_only_bind in Hin.
  destruct (tracked_shipments shipments "receiverShipments") as [rl|] eqn:Hrl; [|done].
  apply elem_of_outcomes_bind in Hin as ([ps|e] & Hps & Hin); [|done].
  rewrite elem_of_only_bind in Hin.
  destruct (tracked_shipments shipments "senderShipments") as [sl|] eqn:Hsl; [|done].
  apply elem_of_outcomes_bind in Hin as ([qs|e] & Hqs & Hin); [|done].
  apply list_elem_of_singleton in Hin. injection Hin as ->.
  apply gather_Ok_Forall2, Forall2_fmap_l in Hps, Hqs.
  exists shipments, rl, sl, ps, qs.
  destruct (cycle_data_lookup ps qs) as (Hr & Hs & _).
  repeat split; try done.
  - symmetry. by eapply Forall2_length.
  - symmetry. by eapply Forall2_length.
Qed.

Lemma cycle_data_one_package_per_shipment_witness :
  exists shipments receiver_listed sender_listed ps qs,
    graphql_shipments (cycle_of [VDict parcel_delivered] [] unreachable) = Ok shipments /\
    tracked_shipments shipments "receiverShipments" = Ok receiver_listed /\
    tracked_shipments shipments "senderShipments" = Ok sender_listed /\
    (<["sender" := []]> (<["receiver" := [package_arrived]]>
       ({[ "receiver" := []; "sender" := [] ]} : gmap string (list Package))))
      !! "receiver" = Some ps /\
    (<["sender" := []]> (<["receiver" := [package_arrived]]>
       ({[ "receiver" := []; "sender" := [] ]} : gmap string (list Package))))
      !! "sender" = Some qs /\
    length ps = length receiver_listed /\ length qs = length sender_listed /\
    Forall2 (fun s p => run unreachable (transform_shipment s) = Ok p) receiver_listed ps /\
    Forall2 (fun s p => run unreachable (transform_shipment s) = Ok p) sender_listed qs.
Proof.
  apply (cycle_data_one_package_per_shipment
           (cycle_of [VDict parcel_delivered] [] unreachable)).
  vm_compute. left.
Defined.

(** X8.  When the token is fine, the shipment list is fetched and every
    listed shipment's coroutine returns a Package, the cycle has exactly one
    outcome: the data with those Packages, in list order, under 'receiver'
    and 'sender', and with no other key. *)
Theorem cycle_succeeds_when_all_succeed (w : Carrier) (shipments : value)
    (receiver_listed sender_listed : list value) (ps qs : list Package) :
  check_and_refresh_token w = Ok tt ->
  graphql_shipments w = Ok shipments ->
  tracked_shipments shipments "receiverShipments" = Ok receiver_listed ->
  tracked_shipments shipments "senderShipments" = Ok sender_listed ->
  Forall2 (fun s p => run (jouw_track_and_trace w) (transform_shipment s) = Ok p)
    receiver_listed ps ->
  Forall2 (fun s p => run (jouw_track_and_trace w) (transform_shipment s) = Ok p)
    sender_listed qs ->
  exists data,
    possible (_async_update_data w) = [Ok data] /\
    data !! "receiver" = Some ps /\ data !! "sender" = Some qs /\
    forall k, k <> "receiver" -> k <> "sender" -> data !! k = None.
Proof.
  intros Hcheck Hg Hrl Hsl Hps Hqs. eexists.
  split; [by eapply update_data_all_Ok|]. apply cycle_data_lookup.
Qed.

Lemma cycle_succeeds_when_all_succeed_witness :
  exists data,
    possible (_async_update_data
                (cycle_of [VDict parcel_delivered] [VDict parcel_delivered] unreachable))
      = [Ok data] /\
    data !! "receiver" = Some [package_arrived] /\
    data !! "sender" = Some [package_arrived] /\
    forall k, k <> "receiver" -> k <> "sender" -> data !! k = None.
Proof.
  apply (cycle_succeeds_when_all_succeed
           (cycle_of [VDict parcel_delivered] [VDict parcel_delivered] unreachable)
           (dict [("trackedShipments",
                   dict [("receiverShipments", VList [VDict parcel_delivered]);
                         ("senderShipments", VList [VDict parcel_delivered])])])
           [VDict parcel_delivered] [VDict parcel_delivered]);
    try (vm_compute; reflexivity);
    (constructor; [vm_compute; reflexivity|constructor]).
Defined.

Lemma tracked_shipments_absent (d : gmap string value) (role : string) :
  d !! "trackedShipments" = None \/
  (exists t, d !! "trackedShipments" = Some (VDict t) /\ t !! role = None) ->
  tracked_shipments (VDict d) role = Ok [].
Proof.
  unfold tracked_shipments. simpl. intros [->|(t & -> & Ht)]; simpl.
  - by rewrite lookup_empty.
  - by rewrite Ht.
Qed.

(** X9.  A shipment list without 'trackedShipments', or whose
    'trackedShipments' names neither receiver nor sender shipments, gives a
    successful cycle with both lists empty. *)
Theorem cycle_without_shipments (w : Carrier) (d : gmap string value) :
  check_and_refresh_token w = Ok tt ->
  graphql_shipments w = Ok (VDict d) ->
  d !! "trackedShipments" = None \/
  (exists t, d !! "trackedShipments" = Some (VDict t) /\
             t !! "receiverShipments" = None /\ t !! "senderShipments" = None) ->
  exists data,
    possible (_async_update_data w) = [Ok data] /\
    data !! "receiver" = Some [] /\ data !! "sender" = Some [].
Proof.
  intros Hcheck Hg Habsent. eexists. split.
  - apply (update_data_all_Ok w (VDict d) [] [] [] []); try done; try constructor.
    + apply tracked_shipments_absent. destruct Habsent as [?|(t & ? & ? & ?)]; eauto.
    + apply tracked_shipments_absent. destruct Habsent as [?|(t & ? & ? & ?)]; eauto.
  - destruct (cycle_data_lookup [] []) as (Hr & Hs & _). done.
Qed.

Lemma cycle_without_shipments_witness :
  exists data,
    possible (_async_update_data
                {| check_and_refresh_token := Ok tt;
                   graphql_shipments := Ok (VDict ∅);
                   jouw_track_and_trace := unreachable |}) = [Ok data] /\
    data !! "receiver" = Some [] /\ data !! "sender" = Some [].
Proof.
  apply (cycle_without_shipments
           {| check_and_refresh_token := Ok tt;
              graphql_shipments := Ok (VDict ∅);
              jouw_track_and_trace := unreachable |} ∅); try reflexivity.
  left. reflexivity.
Defined.

Lemma Forall2_delivered (api : value -> result value) (shs : list (gmap string value)) :
  Forall (fun sh => truthy (shipment_get sh "delivered") = true) shs ->
  Forall2 (fun s p => run api (transform_shipment s) = Ok p)
    (VDict <$> shs) (delivered_package <$> shs).
Proof.
  induction 1 as [|sh shs Hd _ IH]; [constructor|].
  rewrite !fmap_cons. constructor; [|done].
  unfold transform_shipment. by rewrite Hd.
Qed.

(** X10.  When every listed shipment is a mapping whose delivered flag is
    set, the cycle succeeds whatever the track-and-trace service does, and
    the data holds the delivered Package of each shipment, in list order. *)
Theorem cycle_of_delivered_shipments (w : Carrier) (shipments : value)
    (receivers senders : list (gmap string value)) :
  check_and_refresh_token w = Ok tt ->
  graphql_shipments w = Ok shipments ->
  tracked_shipments shipments "receiverShipments" = Ok (VDict <$> receivers) ->
  tracked_shipments shipments "senderShipments" = Ok (VDict <$> senders) ->
  Forall (fun sh => truthy (shipment_get sh "delivered") = true) receivers ->
  Forall (fun sh => truthy (shipment_get sh "delivered") = true) senders ->
  exists data,
    possible (_async_update_data w) = [Ok data] /\
    data !! "receiver" = Some (delivered_package <$> receivers) /\
    data !! "sender" = Some (delivered_package <$> senders).
Proof.
  intros Hcheck Hg Hrl Hsl Hr Hs. eexists. split.
  - apply (update_data_all_Ok w shipments _ _ (delivered_package <$> receivers)
             (delivered_package <$> senders) Hcheck Hg Hrl Hsl);
      by apply Forall2_delivered.
  - destruct (cycle_data_lookup (delivered_package <$> receivers)
                (delivered_package <$> senders)) as (? & ? & _). done.
Qed.

Lemma cycle_of_delivered_shipments_witness :
  exists data,
    possible (_async_update_data
                (cycle_of [VDict parcel_delivered; VDict parcel_delivered] [] unreachable))
      = [Ok data] /\
    data !! "receiver" = Some (delivered_package <$> [parcel_delivered; parcel_delivered]) /\
    data !! "sender" = Some (delivered_package <$> []).
Proof.
  apply (cycle_of_delivered_shipments
           (cycle_of [VDict parcel_delivered; VDict parcel_delivered] [] unreachable)
           (dict [("trackedShipments",
                   dict [("receiverShipments",
                          VList [VDict parcel_delivered; VDict parcel_delivered]);
                         ("senderShipments", VList [])])])
           [parcel_delivered; parcel_delivered] []);
    try (vm_compute; reflexivity).
  - repeat constructor.
  - constructor.
Defined.

(** X11.  A shipment list of the wrong shape ends the cycle with the Python
    error of the failing access, untranslated: [AttributeError] when the
    answer or its 'trackedShipments' is no mapping (a null, say),
    [TypeError] when 'receiverShipments' is null. *)
Theorem cycle_with_malformed_shipment_list (w : Carrier) (shipments : value) :
  check_and_refresh_token w = Ok tt ->
  graphql_shipments w = Ok shipments ->
  (isinstance_dict shipments = false ->
   possible (_async_update_data w) = [Raise AttributeError]) /\
  (forall d v, shipments = VDict d -> d !! "trackedShipments" = Some v ->
     isinstance_dict v = false ->
     possible (_async_update_data w) = [Raise AttributeError]) /\
  (forall d t, shipments = VDict d -> d !! "trackedShipments" = Some (VDict t) ->
     t !! "receiverShipments" = Some VNone ->
     possible (_async_update_data w) = [Raise TypeError]).
Proof.
  intros Hcheck Hg.
  assert (forall e, tracked_shipments shipments "receiverShipments" = Raise e ->
                    e <> RequestException ->
                    possible (_async_update_data w) = [Raise e]) as Hfail.
  { intros e He Hne. unfold _async_update_data. rewrite possible_except.
    rewrite possible_only_bind, Hcheck, possible_only_bind, Hg, possible_only_bind, He.
    by destruct e. }
  repeat split.
  - intros Hnd. apply Hfail; [|done]. by destruct shipments.
  - intros d v -> Hv Hnd. apply Hfail; [|done].
    unfold tracked_shipments. simpl. rewrite Hv. simpl. by destruct v.
  - intros d t -> Ht Hr. apply Hfail; [|done].
    unfold tracked_shipments. simpl. rewrite Ht. simpl. by rewrite Hr.
Qed.

Lemma cycle_with_malformed_shipment_list_witness :
  (isinstance_dict (dict [("trackedShipments", VNone)]) = false ->
   possible (_async_update_data
               {| check_and_refresh_token := Ok tt;
                  graphql_shipments := Ok (dict [("trackedShipments", VNone)]);
                  jouw_track_and_trace := unreachable |}) = [Raise AttributeError]) /\
  (forall d v, dict [("trackedShipments", VNone)] = VDict d ->
     d !! "trackedShipments" = Some v ->
     isinstance_dict v = false ->
     possible (_async_update_data
               {| check_and_refresh_token := Ok tt;
                  graphql_shipments := Ok (dict [("trackedShipments", VNone)]);
                  jouw_track_and_trace := unreachable |}) = [Raise AttributeError]) /\
  (forall d t, dict [("trackedShipments", VNone)] = VDict d ->
     d !! "trackedShipments" = Some (VDict t) ->
     t !! "receiverShipments" = Some VNone ->
     possible (_async_update_data
               {| check_and_refresh_token := Ok tt;
                  graphql_shipments := Ok (dict [("trackedShipments", VNone)]);
                  jouw_track_and_trace := unreachable |}) = [Raise TypeError]).
Proof.
  apply (cycle_with_malformed_shipment_list
           {| check_and_refresh_token := Ok tt;
              graphql_shipments := Ok (dict [("trackedShipments", VNone)]);
              jouw_track_and_trace := unreachable |}
           (dict [("trackedShipments", VNone)])); reflexivity.
Defined.

(** ** The sensors: what a refresh needs and keeps *)

(** X12.  A refresh goes through exactly when the coordinator data has the
    key of the sensor's role; without it the refresh ends with [KeyError]. *)
Theorem handle_coordinator_data_needs_role (data : gmap string (list Package))
    (self : PostNLDelivery) :
  (is_Some (data !! (if receiver self then "receiver" else "sender")) ->
   exists self', handle_coordinator_data data self = Ok self') /\
  (data !! (if receiver self then "receiver" else "sender") = None ->
   handle_coordinator_data data self = Raise KeyError).
Proof.
  split.
  - intros [l Hl]. eexists. by apply handle_coordinator_data_spec.
  - intros Hnone. unfold handle_coordinator_data, attr_index.
    destruct (receiver self); by rewrite Hnone.
Qed.

Lemma arrived_under_way_permutation (l : list Package) :
  (arrived l ++ under_way l)%list ≡ₚ l.
Proof.
  unfold arrived, under_way. induction l as [|p l IH]; [done|]. simpl.
  destruct (truthy (delivered p)); simpl.
  - by rewrite IH.
  - by rewrite <- Permutation_middle, IH.
Qed.

(** X13.  A refresh puts every package of the sensor's list into exactly one
    of the attribute lists, keeping the order: those with the delivered flag
    set into 'delivered', the others into 'enroute'.  The two lists together
    are a rearrangement of the coordinator's list, and every other attribute
    and the role of the sensor stay as they were. *)
Theorem handle_coordinator_data_partitions (data : gmap string (list Package))
    (self self' : PostNLDelivery) (l : list Package) :
  data !! (if receiver self then "receiver" else "sender") = Some l ->
  handle_coordinator_data data self = Ok self' ->
  exists dl el,
    _attributes self' !! "delivered" = Some dl /\
    _attributes self' !! "enroute" = Some el /\
    (dl ++ el)%list ≡ₚ l /\
    (length dl + length el = length l)%nat /\
    Forall (fun p => truthy (delivered p) = true) dl /\
    Forall (fun p => truthy (delivered p) = false) el /\
    dl `sublist_of` l /\ el `sublist_of` l /\
    receiver self' = receiver self /\
    forall k, k <> "delivered" -> k <> "enroute" ->
      _attributes self' !! k = _attributes self !! k.
Proof.
  intros Hl. rewrite (handle_coordinator_data_spec data self l Hl). intros [= <-].
  exists (arrived l), (under_way l). simpl.
  split; [by rewrite lookup_insert_ne, lookup_insert_eq|].
  split; [by rewrite lookup_insert_eq|].
  split; [apply arrived_under_way_permutation|].
  split; [by rewrite <- length_app, arrived_under_way_permutation|].
  split.
  { apply Forall_forall. intros p Hp. apply list_elem_of_In in Hp.
    unfold arrived in Hp. by apply filter_In in Hp as [_ Hp]. }
  split.
  { apply Forall_forall. intros p Hp. apply list_elem_of_In in Hp.
    unfold under_way in Hp. apply filter_In in Hp as [_ Hp].
    by destruct (truthy (delivered p)). }
  split.
  { unfold arrived. clear Hl. induction l as [|p l IH]; [done|]. simpl.
    destruct (truthy (delivered p)); [by apply sublist_skip|by apply sublist_cons]. }
  split.
  { unfold under_way. clear Hl. induction l as [|p l IH]; [done|]. simpl.
    destruct (negb (truthy (delivered p))); [by apply sublist_skip|by apply sublist_cons]. }
  split; [done|].
  intros k Hd He. by rewrite !lookup_insert_ne.
Qed.

Lemma handle_coordinator_data_partitions_witness :
  exists self',
    handle_coordinator_data sample_data (new_sensor true) = Ok self' /\
    exists dl el,
      _attributes self' !! "delivered" = Some dl /\
      _attributes self' !! "enroute" = Some el /\
      (dl ++ el)%list ≡ₚ [package_arrived; package_under_way; package_under_way] /\
      (length dl + length el
       = length [package_arrived; package_under_way; package_under_way])%nat /\
      Forall (fun p => truthy (delivered p) = true) dl /\
      Forall (fun p => truthy (delivered p) = false) el /\
      dl `sublist_of` [package_arrived; package_under_way; package_under_way] /\
      el `sublist_of` [package_arrived; package_under_way; package_under_way] /\
      receiver self' = receiver (new_sensor true) /\
      forall k, k <> "delivered" -> k <> "enroute" ->
        _attributes self' !! k = _attributes (new_sensor true) !! k.
Proof.
  eexists. split; [vm_compute; reflexivity|].
  eapply (handle_coordinator_data_partitions sample_data (new_sensor true));
    vm_compute; reflexivity.
Defined.

(** ** The options flow: what gets stored *)

Section OptionsFlowStored.

Variable int_of_str : string -> option Z.

(** Submitting a mapping, step by step. *)
Lemma submit_options_dict (options d : gmap string value) :
  submit_options int_of_str options (VDict d) =
  if bool_decide (dom d ⊆ ({[ "update_interval" ]} : gset string)) then
    match py_int int_of_str
            (default (default (VInt 90) (options !! "update_interval"))
               (d !! "update_interval")) with
    | Some z => if Z.ltb z 30 then None
                else Some (VDict (<["update_interval" := VInt z]> d))
    | None => None
    end
  else None.
Proof.
  unfold submit_options, async_step_init, apply_schema.
  cbn [schema_key schema_default schema_validator].
  case_bool_decide; [|done]. simpl.
  destruct (py_int _ _) as [z|]; simpl; [|done].
  by destruct (Z.ltb z 30).
Qed.

(** X14.  The options flow stores something exactly when the submitted input
    is a mapping with no key other than update_interval and the value (or,
    without one, the current option, or 90) converts with [int] to an
    integer of at least 30; what it stores is the input with that integer as
    update_interval. *)
Theorem submit_options_stores (options : gmap string value) (user_input stored : value) :
  submit_options int_of_str options user_input = Some stored <->
  exists d z,
    user_input = VDict d /\
    dom d ⊆ ({[ "update_interval" ]} : gset string) /\
    py_int int_of_str
      (default (default (VInt 90) (options !! "update_interval"))
         (d !! "update_interval")) = Some z /\
    30 <= z /\
    stored = VDict (<["update_interval" := VInt z]> d).
Proof.
  split.
  - destruct user_input as [| | | | | |d]; try done.
    rewrite submit_options_dict. case_bool_decide; [|done].
    destruct (py_int _ _) as [z|] eqn:Hz; [|done].
    destruct (Z.ltb_spec z 30); [done|]. intros [= <-]. by exists d, z.
  - intros (d & z & -> & Hdom & Hz & Hge & ->).
    rewrite submit_options_dict, bool_decide_true, Hz by done.
    by destruct (Z.ltb_spec z 30); [lia|].
Qed.

Lemma only_update_interval (d : gmap string value) (v : value) :
  dom d ⊆ ({[ "update_interval" ]} : gset string) ->
  <["update_interval" := v]> d = {[ "update_interval" := v ]}.
Proof.
  intros Hdom. apply map_eq. intros k.
  destruct (decide (k = "update_interval")) as [->|Hne].
  - by rewrite lookup_insert_eq, lookup_singleton_eq.
  - rewrite lookup_insert_ne, lookup_singleton_ne by done.
    apply not_elem_of_dom. intros Hk%Hdom. by apply elem_of_singleton in Hk.
Qed.

(** X15.  Leaving the form as it is stores the default: 90 for an entry
    without the option, the current option when it is an integer of at least
    30, and nothing when the current option is an integer below 30.  What the
    flow has stored is kept when it becomes the entry's options and the form
    is submitted unchanged. *)
Theorem submit_options_default (options : gmap string value) :
  (options !! "update_interval" = None ->
   submit_options int_of_str options (VDict ∅)
   = Some (VDict {[ "update_interval" := VInt 90 ]})) /\
  (forall z, options !! "update_interval" = Some (VInt z) -> 30 <= z ->
   submit_options int_of_str options (VDict ∅)
   = Some (VDict {[ "update_interval" := VInt z ]})) /\
  (forall z, options !! "update_interval" = Some (VInt z) -> z < 30 ->
   submit_options int_of_str options (VDict ∅) = None) /\
  (forall user_input d,
   submit_options int_of_str options user_input = Some (VDict d) ->
   submit_options int_of_str d (VDict ∅) = Some (VDict d)).
Proof.
  assert (forall o : gmap string value, forall z,
            default (VInt 90) (o !! "update_interval") = VInt z ->
            submit_options int_of_str o (VDict ∅)
            = if Z.ltb z 30 then None
              else Some (VDict {[ "update_interval" := VInt z ]})) as Hempty.
  { intros o z Hz. rewrite submit_options_dict, bool_decide_true.
    - rewrite lookup_empty. simpl. rewrite Hz. simpl.
      destruct (Z.ltb z 30); [done|]. by rewrite insert_empty.
    - rewrite dom_empty. apply empty_subseteq. }
  split; [|split; [|split]].
  - intros Hnone. rewrite (Hempty options 90); [done|]. by rewrite Hnone.
  - intros z Hz Hge. rewrite (Hempty options z) by (by rewrite Hz).
    by destruct (Z.ltb_spec z 30); [lia|].
  - intros z Hz Hlt. rewrite (Hempty options z) by (by rewrite Hz).
    by destruct (Z.ltb_spec z 30); [|lia].
  - intros user_input d.
    destruct user_input as [| | | | | |d0]; try done.
    rewrite submit_options_dict. case_bool_decide as Hdom; [|done].
    destruct (py_int _ _) as [z|] eqn:Hz; [|done].
    destruct (Z.ltb_spec z 30) as [|Hge]; [done|]. intros [= <-].
    rewrite (only_update_interval d0 (VInt z) Hdom).
    rewrite (Hempty _ z) by (by rewrite lookup_singleton_eq).
    by destruct (Z.ltb_spec z 30); [lia|].
Qed.

(** X16.  What is stored is the integer that [int] makes of the submitted
    value, never the value as submitted: a boolean and a null are refused, a
    float is cut to its integer part and kept when that is at least 30. *)
Theorem submit_options_coerces (options : gmap string value) :
  (forall b, submit_options int_of_str options
               (VDict {[ "update_interval" := VBool b ]}) = None) /\
  submit_options int_of_str options (VDict {[ "update_interval" := VNone ]}) = None /\
  (forall q,
     submit_options int_of_str options (VDict {[ "update_interval" := VFloat q ]})
     = if Z.ltb (Z.quot (Qnum q) (Z.pos (Qden q))) 30 then None
       else Some (VDict {[ "update_interval" :=
                             VInt (Z.quot (Qnum q) (Z.pos (Qden q))) ]})).
Proof.
  assert (forall v : value,
            submit_options int_of_str options (VDict {[ "update_interval" := v ]})
            = match py_int int_of_str v with
              | Some z => if Z.ltb z 30 then None
                          else Some (VDict {[ "update_interval" := VInt z ]})
              | None => None
              end) as Hone.
  { intros v. rewrite submit_options_dict, bool_decide_true.
    - rewrite lookup_singleton_eq. simpl.
      destruct (py_int int_of_str v) as [z|]; [|done].
      destruct (Z.ltb z 30); [done|]. by rewrite insert_singleton_eq.
    - by rewrite dom_singleton_L. }
  split; [|split].
  - intros b. rewrite Hone. by destruct b.
  - by rewrite Hone.
  - intros q. by rewrite Hone.
Qed.

End OptionsFlowStored.

(** ** Setting up the sensors *)

Lemma string_app_cons (x : Ascii.ascii) (a b : string) :
  (String x a ++ b = String x (a ++ b))%string.
Proof. reflexivity. Qed.

Lemma string_app_assoc (a b c : string) : ((a ++ b) ++ c = a ++ (b ++ c))%string.
Proof.
  induction a as [|x a IH]; [done|]. rewrite !string_app_cons. by f_equal.
Qed.

Lemma string_app_inv_head (a b c : string) : (a ++ b = a ++ c)%string -> b = c.
Proof.
  induction a as [|x a IH]; [done|]. rewrite !string_app_cons.
  intros [= H]. by apply IH.
Qed.

(** What [__init__] makes of data that has the key of the role. *)
Lemma sensor_init_spec (data : gmap string (list Package)) (userinfo uid : value)
    (nm : string) (r : bool) (l : list Package) :
  data !! (if r then "receiver" else "sender") = Some l ->
  Sensor.__init__ data userinfo uid nm r =
    Ok {| Sensor.postnl_userinfo := userinfo;
          Sensor._unique_id := uid;
          Sensor._name := nm;
          Sensor.fields :=
            {| _attributes :=
                 <["enroute" := under_way l]>
                   (<["delivered" := arrived l]>
                      ({[ "enroute" := []; "delivered" := [] ]}
                         : gmap string (list Package)));
               _state := Some (length (under_way l));
               receiver := r |} |}.
Proof.
  intros Hl. unfold Sensor.__init__.
  by rewrite (handle_coordinator_data_spec data
                {| _attributes := {[ "enroute" := []; "delivered" := [] ]};
                   _state := None; receiver := r |} l Hl).
Qed.

(** X17.  With coordinator data in place and a userinfo mapping whose
    account_id is a string, the setup adds two sensors: PostNL_delivery for
    the receiver list with the unique id account_id + "_delivery", and
    PostNL_distribution for the sender list with account_id +
    "_distribution".  The two ids differ, each state is the number of
    packages under way in its list, and both sensors name the same device,
    identified by the account id. *)
Theorem sensor_setup_adds_two_sensors (DOMAIN : string)
    (data : gmap string (list Package)) (u : gmap string value) (a : string)
    (rs ss : list Package) :
  data !! "receiver" = Some rs ->
  data !! "sender" = Some ss ->
  u !! "account_id" = Some (VStr a) ->
  exists delivery distribution,
    Sensor.async_setup_entry (Ok data) (Some (VDict u))
      = Sensor.Added [delivery; distribution] /\
    Sensor.unique_id delivery = VStr (a ++ "_delivery") /\
    Sensor.unique_id distribution = VStr (a ++ "_distribution") /\
    Sensor.unique_id delivery <> Sensor.unique_id distribution /\
    Sensor.name delivery = "PostNL_delivery" /\
    Sensor.name distribution = "PostNL_distribution" /\
    receiver (Sensor.fields delivery) = true /\
    receiver (Sensor.fields distribution) = false /\
    Sensor.state delivery = Some (length (under_way rs)) /\
    Sensor.state distribution = Some (length (under_way ss)) /\
    Sensor.device_info DOMAIN delivery = Sensor.device_info DOMAIN distribution /\
    Sensor.device_info DOMAIN delivery =
      Ok {| Sensor.identifiers := (DOMAIN, VStr a);
            Sensor.device_name := default VNone (u !! "email");
            Sensor.manufacturer := "PostNL" |}.
Proof.
  intros Hrs Hss Ha. do 2 eexists. split.
  - unfold Sensor.async_setup_entry. simpl default.
    rewrite (truthy_dict_lookup _ _ _ Ha). simpl negb. cbv iota.
    simpl py_get. rewrite Ha. simpl.
    rewrite (sensor_init_spec data _ _ _ true rs Hrs). simpl.
    rewrite (sensor_init_spec data _ _ _ false ss Hss). simpl. reflexivity.
  - unfold Sensor.unique_id, Sensor.name, Sensor.state, Sensor.device_info. simpl.
    rewrite !string_app_assoc. simpl. rewrite Ha. simpl.
    repeat split; try done.
    intros [= Heq]. by apply string_app_inv_head in Heq.
Qed.

Lemma sensor_setup_adds_two_sensors_witness :
  exists delivery distribution,
    Sensor.async_setup_entry (Ok sample_data)
      (Some (dict [("account_id", VStr "acc42"); ("email", VStr "jan@example.nl")]))
      = Sensor.Added [delivery; distribution] /\
    Sensor.unique_id delivery = VStr ("acc42" ++ "_delivery") /\
    Sensor.unique_id distribution = VStr ("acc42" ++ "_distribution") /\
    Sensor.unique_id delivery <> Sensor.unique_id distribution /\
    Sensor.name delivery = "PostNL_delivery" /\
    Sensor.name distribution = "PostNL_distribution" /\
    receiver (Sensor.fields delivery) = true /\
    receiver (Sensor.fields distribution) = false /\
    Sensor.state delivery
      = Some (length (under_way [package_arrived; package_under_way; package_under_way])) /\
    Sensor.state distribution = Some (length (under_way [package_arrived])) /\
    Sensor.device_info "postnl" delivery = Sensor.device_info "postnl" distribution /\
    Sensor.device_info "postnl" delivery =
      Ok {| Sensor.identifiers := ("postnl", VStr "acc42");
            Sensor.device_name :=
              default VNone
                ((list_to_map [("account_id", VStr "acc42");
                               ("email", VStr "jan@example.nl")] : gmap string value)
                   !! "email");
            Sensor.manufacturer := "PostNL" |}.
Proof.
  apply (sensor_setup_adds_two_sensors "postnl" sample_data
           (list_to_map [("account_id", VStr "acc42"); ("email", VStr "jan@example.nl")])
           "acc42" [package_arrived; package_under_way; package_under_way]
           [package_arrived]); vm_compute; reflexivity.
Defined.

(** X18.  The setup adds sensors only after a first refresh that succeeded
    with data for both roles, and only for a userinfo that is a mapping with
    a string as account_id; the sensors it adds are two. *)
Theorem sensor_setup_adds_only_with_account
    (first_refresh : result (gmap string (list Package)))
    (stored_userinfo : option value) (entities : list Sensor.Entity) :
  Sensor.async_setup_entry first_refresh stored_userinfo = Sensor.Added entities ->
  exists data u a,
    first_refresh = Ok data /\
    stored_userinfo = Some (VDict u) /\
    u !! "account_id" = Some (VStr a) /\
    is_Some (data !! "receiver") /\ is_Some (data !! "sender") /\
    length entities = 2%nat.
Proof.
  unfold Sensor.async_setup_entry.
  destruct first_refresh as [data|e]; [|done].
  destruct stored_userinfo as [userinfo|]; [|done]. simpl default.
  destruct (truthy userinfo); simpl negb; cbv iota; [|done].
  destruct userinfo as [| | | | | |u]; try done. simpl py_get.
  destruct (u !! "account_id") as [account_id|] eqn:Ha; [|done]. simpl default.
  destruct account_id as [| | | |a| |]; try done. simpl.
  destruct (data !! "receiver") as [rs|] eqn:Hrs.
  2:{ unfold Sensor.__init__, handle_coordinator_data, attr_index. simpl.
      by rewrite Hrs. }
  rewrite (sensor_init_spec data _ _ _ true rs Hrs). simpl.
  destruct (data !! "sender") as [ss|] eqn:Hss.
  2:{ unfold Sensor.__init__, handle_coordinator_data, attr_index. simpl.
      by rewrite Hss. }
  rewrite (sensor_init_spec data _ _ _ false ss Hss). simpl.
  intros [= <-]. exists data, u, a. rewrite Hrs, Hss. eauto 10.
Qed.

Lemma sensor_setup_adds_only_with_account_witness :
  exists entities,
    Sensor.async_setup_entry (Ok sample_data) (Some (dict [("account_id", VStr "acc42")]))
      = Sensor.Added entities /\
    exists data u a,
      Ok sample_data = Ok data /\
      Some (dict [("account_id", VStr "acc42")]) = Some (VDict u) /\
      u !! "account_id" = Some (VStr a) /\
      is_Some (data !! "receiver") /\ is_Some (data !! "sender") /\
      length entities = 2%nat.
Proof.
  eexists. split; [vm_compute; reflexivity|].
  eapply (sensor_setup_adds_only_with_account (Ok sample_data)
            (Some (dict [("account_id", VStr "acc42")]))).
  vm_compute. reflexivity.
Defined.

(** X19.  The setup ends in [ConfigEntryNotReady] when the first refresh
    failed, whatever the userinfo; it adds nothing, without an error, when no
    userinfo is stored or the stored one is empty; and it raises [TypeError]
    for a userinfo mapping that is not empty but has no account_id, or has
    one that is not a string. *)
Theorem sensor_setup_without_sensors (data : gmap string (list Package)) :
  (forall e stored_userinfo,
     Sensor.async_setup_entry (Raise e) stored_userinfo = Sensor.ConfigEntryNotReady) /\
  Sensor.async_setup_entry (Ok data) None = Sensor.NothingAdded /\
  (forall userinfo, truthy userinfo = false ->
     Sensor.async_setup_entry (Ok data) (Some userinfo) = Sensor.NothingAdded) /\
  (forall u, truthy (VDict u) = true ->
     (forall a, u !! "account_id" <> Some (VStr a)) ->
     Sensor.async_setup_entry (Ok data) (Some (VDict u)) = Sensor.Raises TypeError).
Proof.
  split; [done|]. split; [done|]. split.
  - intros userinfo Hf. unfold Sensor.async_setup_entry. simpl default. by rewrite Hf.
  - intros u Ht Hna. unfold Sensor.async_setup_entry. simpl default.
    rewrite Ht. simpl negb. cbv iota. simpl py_get.
    destruct (u !! "account_id") as [account_id|] eqn:Ha; [|done]. simpl default.
    destruct account_id as [| | | |a| |]; try done. by destruct (Hna a).
Qed.

(** ** The token check *)

(** X20.  The token check starts the reauth flow exactly when the validation
    of the token or the profile query fails with a [ClientResponseError] of
    status 400; and every [ClientResponseError] of the two, whatever its
    status, is raised again as [HomeAssistantError]. *)
Theorem check_and_refresh_token_reauth (host : Init.Host) (now : Z) (token : Init.Token) :
  (Init.reauth_started (Init.check_and_refresh_token host now token) = true <->
   fst (Init.ensure_and_probe host token) = Init.Fails (Init.ClientResponseError 400)) /\
  (forall status,
     fst (Init.ensure_and_probe host token) = Init.Fails (Init.ClientResponseError status) ->
     Init.returned (Init.check_and_refresh_token host now token)
     = Init.Fails (Init.Py HomeAssistantError)).
Proof.
  unfold Init.check_and_refresh_token.
  destruct (Init.ensure_and_probe host token) as [[[]|e] token']; simpl.
  - split; [done|]. by intros status.
  - destruct e as [| |status| | | |e]; simpl; try (split; [done|by intros status]).
    + split; [|done]. split.
      * by intros ->%Z.eqb_eq.
      * intros [= ->]. done.
    + destruct (Init.async_ensure_token_valid host _); simpl; split; try done;
        by intros status.
Qed.

(** X21.  A failure of the validation or of the profile query with an aiohttp
    [ClientError] that carries no status ends the token check with
    [AttributeError], raised where the handler reads the status: no
    [HomeAssistantError] is raised and no reauth is started. *)
Theorem check_and_refresh_token_ClientError (host : Init.Host) (now : Z)
    (token : Init.Token) :
  fst (Init.ensure_and_probe host token) = Init.Fails Init.ClientError ->
  Init.returned (Init.check_and_refresh_token host now token)
    = Init.Fails (Init.Py AttributeError) /\
  Init.reauth_started (Init.check_and_refresh_token host now token) = false.
Proof.
  unfold Init.check_and_refresh_token.
  destruct (Init.ensure_and_probe host token) as [[[]|e] token']; simpl; [done|].
  by intros [= ->].
Qed.

Lemma check_and_refresh_token_ClientError_witness :
  Init.returned
    (Init.check_and_refresh_token
       {| Init.async_ensure_token_valid := fun t => Init.Fine t;
          Init.profile := fun _ => Init.Fails Init.ClientError;
          Init.login_userinfo := fun _ => Init.Fine VNone;
          Init.async_update_entity := fun _ _ => Init.Fine tt;
          Init.async_forward_entry_setups := Init.Fine tt |}
       1700000100 sample_token)
    = Init.Fails (Init.Py AttributeError) /\
  Init.reauth_started
    (Init.check_and_refresh_token
       {| Init.async_ensure_token_valid := fun t => Init.Fine t;
          Init.profile := fun _ => Init.Fails Init.ClientError;
          Init.login_userinfo := fun _ => Init.Fine VNone;
          Init.async_update_entity := fun _ _ => Init.Fine tt;
          Init.async_forward_entry_setups := Init.Fine tt |}
       1700000100 sample_token) = false.
Proof.
  apply (check_and_refresh_token_ClientError
           {| Init.async_ensure_token_valid := fun t => Init.Fine t;
              Init.profile := fun _ => Init.Fails Init.ClientError;
              Init.login_userinfo := fun _ => Init.Fine VNone;
              Init.async_update_entity := fun _ _ => Init.Fine tt;
              Init.async_forward_entry_setups := Init.Fine tt |}
           1700000100 sample_token).
  reflexivity.
Defined.

(** X22.  After a [TransportQueryError] of the profile query the token is
    made to look expired (its expiry is set 600 seconds before now, the
    access token is kept) and validated once more.  What that second
    validation returns is the token that is returned; what it raises is
    raised as it is, untranslated and without reauth, and the token is left
    expired. *)
Theorem check_and_refresh_token_retry (host : Init.Host) (now : Z)
    (token token' : Init.Token) :
  Init.async_ensure_token_valid host token = Init.Fine token' ->
  Init.profile host (Init.access_token token') = Init.Fails Init.TransportQueryError ->
  let expired := Init.force_refresh_expire now token' in
  Init.access_token expired = Init.access_token token' /\
  Init.expires_at expired < now /\
  Init.reauth_started (Init.check_and_refresh_token host now token) = false /\
  (forall token'',
     Init.async_ensure_token_valid host expired = Init.Fine token'' ->
     Init.returned (Init.check_and_refresh_token host now token)
       = Init.Fine (Init.access_token token'') /\
     Init.token_after (Init.check_and_refresh_token host now token) = token'') /\
  (forall e,
     Init.async_ensure_token_valid host expired = Init.Fails e ->
     Init.returned (Init.check_and_refresh_token host now token) = Init.Fails e /\
     Init.token_after (Init.check_and_refresh_token host now token) = expired).
Proof.
  intros Hensure Hprofile expired.
  unfold Init.check_and_refresh_token, Init.ensure_and_probe.
  rewrite Hensure, Hprofile. fold expired.
  split; [done|]. split; [simpl; lia|].
  destruct (Init.async_ensure_token_valid host expired) as [t2|e2]; simpl.
  - split; [done|]. split; [by intros ? [= <-]|done].
  - split; [done|]. split; [done|by intros ? [= <-]].
Qed.

Lemma check_and_refresh_token_retry_witness :
  Init.returned (Init.check_and_refresh_token stale_host 1700000100 unexpired_token)
    = Init.Fine "tok2".
Proof.
  destruct (check_and_refresh_token_retry stale_host 1700000100
              unexpired_token unexpired_token eq_refl eq_refl) as (_ & _ & _ & Hfine & _).
  exact (proj1 (Hfine {| Init.access_token := "tok2"; Init.expires_at := 1700003700 |}
                  eq_refl)).
Defined.

(** ** The migration of unique ids *)

Lemma prefix_app (a s : string) : String.prefix a (a ++ s)%string = true.
Proof.
  induction a as [|x a IH]; [by destruct s|].
  rewrite string_app_cons. simpl. by destruct (Ascii.ascii_dec x x).
Qed.

Lemma split_not_nil (sep : Ascii.ascii) (s : string) : Init.split sep s <> [].
Proof.
  destruct s as [|c s]; simpl; [done|].
  destruct (Ascii.eqb c sep); [done|]. by destruct (Init.split sep s).
Qed.

(** No part of a split holds the separator. *)
Lemma split_parts (sep : Ascii.ascii) (s : string) :
  Forall (fun part => has_char sep part = false) (Init.split sep s).
Proof.
  induction s as [|c s IH]; simpl; [by constructor|].
  destruct (Ascii.eqb c sep) eqn:Hc; [by constructor|].
  destruct (Init.split sep s) as [|part parts].
  - constructor; [|done]. simpl. by rewrite Hc.
  - inversion IH as [|? ? Hpart Hparts]; subst.
    constructor; [|done]. simpl. by rewrite Hc.
Qed.

Lemma split_without_sep (sep : Ascii.ascii) (s : string) :
  has_char sep s = false -> Init.split sep s = [s].
Proof.
  induction s as [|c s IH]; simpl; [done|].
  intros [Hc Hs]%orb_false_elim. rewrite Hc, (IH Hs). done.
Qed.

Lemma split_at_sep (sep : Ascii.ascii) (x y : string) :
  has_char sep x = false ->
  Init.split sep (x ++ String sep y)%string = x :: Init.split sep y.
Proof.
  induction x as [|c x IH]; intros Hx.
  - change (Init.split sep (String sep y) = "" :: Init.split sep y).
    simpl. by rewrite Ascii.eqb_refl.
  - simpl in Hx. apply orb_false_elim in Hx as [Hc Hx].
    rewrite string_app_cons. simpl. by rewrite Hc, (IH Hx).
Qed.

(** The part that [new_unique_id] keeps. *)
Lemma new_unique_id_part (account_id uid : string) :
  exists part,
    Init.new_unique_id account_id uid = (account_id ++ "_" ++ part)%string /\
    has_char "_" part = false.
Proof.
  unfold Init.new_unique_id.
  pose proof (split_parts "_" uid) as Hparts.
  pose proof (split_not_nil "_" uid) as Hnil.
  destruct (Init.split "_" uid) as [|p0 [|p1 parts]]; [done| |].
  - exists p0. split; [done|]. by inversion Hparts.
  - exists p1. split; [done|].
    inversion Hparts as [|? ? _ Hrest]; subst. by inversion Hrest.
Qed.

Lemma new_unique_id_prefix (account_id uid : string) :
  String.prefix account_id (Init.new_unique_id account_id uid) = true.
Proof.
  destruct (new_unique_id_part account_id uid) as (part & -> & _). apply prefix_app.
Qed.

(** Where a request of the loop over the entities comes from. *)
Lemma migrate_entities_elem (host : Init.Host) (account_id : string)
    (entries : list Init.RegistryEntry) (eid uid : string) :
  (eid, uid) ∈ fst (Init.migrate_entities host account_id entries) ->
  exists e,
    e ∈ entries /\
    Init.entity_id e = eid /\
    String.prefix account_id (Init.unique_id e) = false /\
    uid = Init.new_unique_id account_id (Init.unique_id e) /\
    String.prefix account_id uid = true /\
    exists part, uid = (account_id ++ "_" ++ part)%string /\ has_char "_" part = false.
Proof.
  induction entries as [|e entries IH]; simpl.
  - by intros ?%elem_of_nil.
  - destruct (String.prefix account_id (Init.unique_id e)) eqn:Hp.
    + intros (e' & He' & Hrest)%IH. exists e'. split; [by right|done].
    + assert (exists e0, e0 ∈ e :: entries /\ Init.entity_id e0 = Init.entity_id e /\
                String.prefix account_id (Init.unique_id e0) = false /\
                Init.new_unique_id account_id (Init.unique_id e)
                = Init.new_unique_id account_id (Init.unique_id e0) /\
                String.prefix account_id
                  (Init.new_unique_id account_id (Init.unique_id e)) = true /\
                exists part,
                  Init.new_unique_id account_id (Init.unique_id e)
                  = (account_id ++ "_" ++ part)%string /\ has_char "_" part = false)
        as Hhere.
      { exists e. split; [by left|]. repeat split; try done.
        - apply new_unique_id_prefix.
        - apply new_unique_id_part. }
      destruct (Init.async_update_entity host _ _); simpl.
      * destruct (Init.migrate_entities host account_id entries) as [requests status].
        simpl in *. intros [[= -> ->]|Hin]%elem_of_cons; [exact Hhere|].
        destruct (IH Hin) as (e' & He' & Hrest). exists e'. split; [by right|done].
      * intros [= -> ->]%list_elem_of_singleton. exact Hhere.
Qed.

(** X23.  Whatever the registry answers, every update that the migration of
    a device's entities asks for concerns an entity whose unique id does not
    start with the account id, and gives it an id of the form
    account_id + "_" + part, where the part holds no underscore; so the new
    id starts with the account id. *)
Theorem migrate_entities_requests (host : Init.Host) (account_id : string)
    (entries : list Init.RegistryEntry) (eid uid : string) :
  (eid, uid) ∈ fst (Init.migrate_entities host account_id entries) ->
  exists e,
    e ∈ entries /\
    Init.entity_id e = eid /\
    String.prefix account_id (Init.unique_id e) = false /\
    uid = Init.new_unique_id account_id (Init.unique_id e) /\
    String.prefix account_id uid = true /\
    exists part, uid = (account_id ++ "_" ++ part)%string /\ has_char "_" part = false.
Proof. apply migrate_entities_elem. Qed.

Lemma migrate_entities_requests_witness :
  exists e,
    e ∈ sample_registry /\
    Init.entity_id e = "sensor.postnl_delivery" /\
    String.prefix "acc42" (Init.unique_id e) = false /\
    "acc42_delivery" = Init.new_unique_id "acc42" (Init.unique_id e) /\
    String.prefix "acc42" "acc42_delivery" = true /\
    exists part, "acc42_delivery" = ("acc42" ++ "_" ++ part)%string /\
                 has_char "_" part = false.
Proof.
  apply (migrate_entities_requests (friendly_host sample_userinfo) "acc42" sample_registry
           "sensor.postnl_delivery" "acc42_delivery").
  vm_compute. left.
Defined.

(** When the registry accepts every update, the loop over the entities is a
    filter followed by a map. *)
Lemma migrate_entities_complete (host : Init.Host) (account_id : string)
    (entries : list Init.RegistryEntry) :
  (forall eid uid, Init.async_update_entity host eid uid = Init.Fine tt) ->
  Init.migrate_entities host account_id entries =
    (List.map (fun e => (Init.entity_id e,
                         Init.new_unique_id account_id (Init.unique_id e)))
       (List.filter (fun e => negb (String.prefix account_id (Init.unique_id e))) entries),
     Init.Fine tt).
Proof.
  intros Haccept. induction entries as [|e entries IH]; simpl; [done|].
  destruct (String.prefix account_id (Init.unique_id e)); simpl; [done|].
  by rewrite Haccept, IH.
Qed.


Lemma renamed_prefix (account_id : string) (e : Init.RegistryEntry) :
  String.prefix account_id (Init.unique_id (renamed account_id e)) = true.
Proof.
  unfold renamed. destruct (String.prefix account_id (Init.unique_id e)) eqn:Hp; [done|].
  apply new_unique_id_prefix.
Qed.

(** X24.  The migration settles: once the entities carry the unique ids it
    asked for, a second migration asks for nothing, whatever the registry
    would answer; and an entity that has been migrated is left alone by
    [renamed] itself. *)
Theorem migrate_entities_settles (host : Init.Host) (account_id : string)
    (entries : list Init.RegistryEntry) :
  Init.migrate_entities host account_id (renamed account_id <$> entries)
    = ([], Init.Fine tt) /\
  renamed account_id <$> (renamed account_id <$> entries) = renamed account_id <$> entries.
Proof.
  split.
  - induction entries as [|e entries IH]; [done|].
    rewrite fmap_cons. simpl. by rewrite renamed_prefix.
  - induction entries as [|e entries IH]; [done|].
    rewrite !fmap_cons, IH. f_equal.
    unfold renamed at 1. by rewrite renamed_prefix.
Qed.

(** X25.  The new unique id keeps one part of the old one: for an old id
    without underscore the whole id, for an old id of two or more parts the
    second part only.  So "x_delivery" becomes account_id + "_delivery", and
    whatever follows a second underscore is dropped. *)
Theorem new_unique_id_keeps_one_part (account_id x y z : string) :
  has_char "_" x = false ->
  has_char "_" y = false ->
  Init.new_unique_id account_id x = (account_id ++ "_" ++ x)%string /\
  Init.new_unique_id account_id (x ++ "_" ++ y) = (account_id ++ "_" ++ y)%string /\
  Init.new_unique_id account_id (x ++ "_" ++ y ++ "_" ++ z)
    = (account_id ++ "_" ++ y)%string.
Proof.
  intros Hx Hy. unfold Init.new_unique_id. split; [|split].
  - by rewrite (split_without_sep _ x Hx).
  - change (x ++ "_" ++ y)%string with (x ++ String "_" y)%string.
    by rewrite (split_at_sep _ x y Hx), (split_without_sep _ y Hy).
  - change (x ++ "_" ++ y ++ "_" ++ z)%string with (x ++ String "_" (y ++ String "_" z))%string.
    rewrite (split_at_sep _ x _ Hx), (split_at_sep _ y z Hy).
    pose proof (split_not_nil "_" z). by destruct (Init.split "_" z).
Qed.

Lemma new_unique_id_keeps_one_part_witness :
  Init.new_unique_id "acc42" "legacy" = ("acc42" ++ "_" ++ "legacy")%string /\
  Init.new_unique_id "acc42" ("legacy" ++ "_" ++ "delivery")
    = ("acc42" ++ "_" ++ "delivery")%string /\
  Init.new_unique_id "acc42" ("legacy" ++ "_" ++ "delivery" ++ "_" ++ "2_b")
    = ("acc42" ++ "_" ++ "delivery")%string.
Proof.
  apply (new_unique_id_keeps_one_part "acc42" "legacy" "delivery" "2_b"); reflexivity.
Defined.

(** X26.  The migration touches only the entities of a device whose
    identifiers are exactly the pair of the domain and the account id of the
    userinfo: every update it asks for concerns an entity registered for such
    a device, and there is none unless the account id is a string. *)
Theorem migrate_only_account_device (DOMAIN : string) (host : Init.Host)
    (userinfo : value) (devices : list Init.DeviceEntry)
    (entity_registry : list Init.RegistryEntry) (eid uid : string) :
  (eid, uid) ∈ fst (Init.migrate DOMAIN host userinfo devices entity_registry) ->
  exists a device e,
    field userinfo "account_id" = VStr a /\
    device ∈ devices /\
    Init.identifiers device = {[ (DOMAIN, a) ]} /\
    e ∈ entity_registry /\
    Init.device_id e = Init.id device /\
    Init.entity_id e = eid /\
    String.prefix a (Init.unique_id e) = false /\
    uid = Init.new_unique_id a (Init.unique_id e).
Proof.
  induction devices as [|device devices IH]; simpl.
  - by intros ?%elem_of_nil.
  - assert ((eid, uid) ∈ fst (Init.migrate DOMAIN host userinfo devices entity_registry) ->
            exists a device0 e,
              field userinfo "account_id" = VStr a /\
              device0 ∈ device :: devices /\
              Init.identifiers device0 = {[ (DOMAIN, a) ]} /\
              e ∈ entity_registry /\
              Init.device_id e = Init.id device0 /\
              Init.entity_id e = eid /\
              String.prefix a (Init.unique_id e) = false /\
              uid = Init.new_unique_id a (Init.unique_id e)) as Hrest.
    { intros (a & d0 & e & Ha & Hd0 & Hrest)%IH. exists a, d0, e.
      split; [done|]. split; [by right|done]. }
    match goal with |- _ -> ?G => set (Q := G) in * end.
    destruct userinfo as [| | | | | |u]; simpl; try by intros ?%elem_of_nil.
    destruct (default VNone (u !! "account_id")) as [| | | |a| |] eqn:Ha; simpl;
      try exact Hrest; try by intros ?%elem_of_nil.
    case_bool_decide as Hid; [|exact Hrest].
    assert (forall e, e ∈ Init.async_entries_for_device entity_registry (Init.id device) ->
                      Init.entity_id e = eid ->
                      String.prefix a (Init.unique_id e) = false ->
                      uid = Init.new_unique_id a (Init.unique_id e) -> Q) as Hhere.
    { intros e He Heid Hp Huid.
      apply list_elem_of_In, filter_In in He as [He Hdev].
      apply String.eqb_eq in Hdev. apply list_elem_of_In in He.
      exists a, device, e. unfold field, field_or. rewrite Ha.
      split; [done|]. split; [by left|]. done. }
    destruct (Init.migrate_entities host a _) as [requests [[]|e]] eqn:Hme.
    + destruct (Init.migrate DOMAIN host (VDict u) devices entity_registry)
        as [more status]. simpl in Hrest |- *.
      intros [Hin|Hin]%elem_of_app; [|by apply Hrest].
      assert ((eid, uid) ∈ fst (Init.migrate_entities host a
                (Init.async_entries_for_device entity_registry (Init.id device))))
        as Hin' by (by rewrite Hme).
      apply migrate_entities_elem in Hin' as (e & He & Heid & Hp & Huid & _).
      by eapply Hhere.
    + simpl. intros Hin.
      assert ((eid, uid) ∈ fst (Init.migrate_entities host a
                (Init.async_entries_for_device entity_registry (Init.id device))))
        as Hin' by (by rewrite Hme).
      apply migrate_entities_elem in Hin' as (e0 & He & Heid & Hp & Huid & _).
      by eapply Hhere.
Qed.

Lemma migrate_only_account_device_witness :
  exists a device e,
    field sample_userinfo "account_id" = VStr a /\
    device ∈ sample_devices /\
    Init.identifiers device = {[ ("postnl", a) ]} /\
    e ∈ sample_registry /\
    Init.device_id e = Init.id device /\
    Init.entity_id e = "sensor.postnl_delivery" /\
    String.prefix a (Init.unique_id e) = false /\
    "acc42_delivery" = Init.new_unique_id a (Init.unique_id e).
Proof.
  apply (migrate_only_account_device "postnl" (friendly_host sample_userinfo)
           sample_userinfo sample_devices sample_registry
           "sensor.postnl_delivery" "acc42_delivery").
  vm_compute. left.
Defined.

(** ** Setup and unload of the config entry *)

(** X27.  A setup that returns True has checked the token, fetched a
    userinfo in which there is no 'error', and forwarded the entry to the
    platforms; the entry then holds the checked token as 'auth' and that
    userinfo, and the data of the other entries are as before. *)
Theorem setup_returns_True (DOMAIN : string) (host : Init.Host) (now : Z)
    (token : Init.Token) (entry_id : string) (data : gmap string Init.EntryData)
    (devices : list Init.DeviceEntry) (entity_registry : list Init.RegistryEntry) :
  let done :=
    Init.async_setup_entry DOMAIN host now token entry_id data devices entity_registry in
  let auth := Init.token_after (Init.check_and_refresh_token host now token) in
  Init.outcome done = Init.Fine true ->
  exists ui,
    (exists s, Init.returned (Init.check_and_refresh_token host now token) = Init.Fine s) /\
    Init.login_userinfo host (Init.access_token auth) = Init.Fine ui /\
    py_contains "error" ui = Ok false /\
    Init.async_forward_entry_setups host = Init.Fine tt /\
    Init.domain_data done !! entry_id
      = Some {| Init.auth := auth; Init.userinfo := Some ui |} /\
    forall k, k <> entry_id -> Init.domain_data done !! k = data !! k.
Proof.
  intros done auth. subst done auth. unfold Init.async_setup_entry.
  destruct (Init.returned (Init.check_and_refresh_token host now token)) as [s|e] eqn:Hret.
  2:{ by destruct e. }
  destruct (Init.login_userinfo host _) as [ui|e] eqn:Hui.
  2:{ simpl. destruct (Init.is_RequestException e); [done|]. by destruct e. }
  destruct (py_contains "error" ui) as [[|]|e] eqn:Herr; simpl.
  - by destruct (py_get ui "error" VNone).
  - destruct (Init.migrate DOMAIN host ui devices entity_registry) as [requests [[]|e]];
      simpl; [|done].
    destruct (Init.async_forward_entry_setups host) as [[]|e] eqn:Hfw; [|done].
    intros _. exists ui. split; [eauto|]. repeat split; try done.
    + by rewrite lookup_insert_eq.
    + intros k Hk. by rewrite !lookup_insert_ne.
  - done.
Qed.

Lemma setup_returns_True_witness :
  exists ui,
    (exists s, Init.returned
                 (Init.check_and_refresh_token (friendly_host sample_userinfo)
                    1700000100 unexpired_token) = Init.Fine s) /\
    Init.login_userinfo (friendly_host sample_userinfo)
      (Init.access_token
         (Init.token_after
            (Init.check_and_refresh_token (friendly_host sample_userinfo)
               1700000100 unexpired_token))) = Init.Fine ui /\
    py_contains "error" ui = Ok false /\
    Init.async_forward_entry_setups (friendly_host sample_userinfo) = Init.Fine tt /\
    Init.domain_data
      (Init.async_setup_entry "postnl" (friendly_host sample_userinfo) 1700000100
         unexpired_token "entry1" ∅ sample_devices sample_registry) !! "entry1"
      = Some {| Init.auth :=
                  Init.token_after
                    (Init.check_and_refresh_token (friendly_host sample_userinfo)
                       1700000100 unexpired_token);
                Init.userinfo := Some ui |} /\
    forall k, k <> "entry1" ->
      Init.domain_data
        (Init.async_setup_entry "postnl" (friendly_host sample_userinfo) 1700000100
           unexpired_token "entry1" ∅ sample_devices sample_registry) !! k
      = (∅ : gmap string Init.EntryData) !! k.
Proof.
  apply (setup_returns_True "postnl" (friendly_host sample_userinfo) 1700000100
           unexpired_token "entry1" ∅ sample_devices sample_registry).
  vm_compute. reflexivity.
Defined.

(** X28.  When the token check raises, the setup stores nothing and asks for
    no update: a requests [ConnectionError] becomes [ConfigEntryNotReady],
    every other exception is raised as it is. *)
Theorem setup_token_check_fails (DOMAIN : string) (host : Init.Host) (now : Z)
    (token : Init.Token) (entry_id : string) (data : gmap string Init.EntryData)
    (devices : list Init.DeviceEntry) (entity_registry : list Init.RegistryEntry)
    (e : Init.raised) :
  let done :=
    Init.async_setup_entry DOMAIN host now token entry_id data devices entity_registry in
  Init.returned (Init.check_and_refresh_token host now token) = Init.Fails e ->
  Init.domain_data done = data /\
  Init.update_requests done = [] /\
  (e = Init.ConnectionError -> Init.outcome done = Init.Fails Init.ConfigEntryNotReady) /\
  (e <> Init.ConnectionError -> Init.outcome done = Init.Fails e).
Proof.
  intros done He. subst done. unfold Init.async_setup_entry. rewrite He.
  destruct e; simpl; repeat split; done.
Qed.

Lemma setup_token_check_fails_witness :
  Init.domain_data
    (Init.async_setup_entry "postnl"
       {| Init.async_ensure_token_valid := fun _ => Init.Fails Init.ConnectionError;
          Init.profile := fun _ => Init.Fine tt;
          Init.login_userinfo := fun _ => Init.Fine sample_userinfo;
          Init.async_update_entity := fun _ _ => Init.Fine tt;
          Init.async_forward_entry_setups := Init.Fine tt |}
       1700000100 unexpired_token "entry1" ∅ sample_devices sample_registry) = ∅ /\
  Init.outcome
    (Init.async_setup_entry "postnl"
       {| Init.async_ensure_token_valid := fun _ => Init.Fails Init.ConnectionError;
          Init.profile := fun _ => Init.Fine tt;
          Init.login_userinfo := fun _ => Init.Fine sample_userinfo;
          Init.async_update_entity := fun _ _ => Init.Fine tt;
          Init.async_forward_entry_setups := Init.Fine tt |}
       1700000100 unexpired_token "entry1" ∅ sample_devices sample_registry)
    = Init.Fails Init.ConfigEntryNotReady.
Proof.
  destruct (setup_token_check_fails "postnl"
              {| Init.async_ensure_token_valid := fun _ => Init.Fails Init.ConnectionError;
                 Init.profile := fun _ => Init.Fine tt;
                 Init.login_userinfo := fun _ => Init.Fine sample_userinfo;
                 Init.async_update_entity := fun _ _ => Init.Fine tt;
                 Init.async_forward_entry_setups := Init.Fine tt |}
              1700000100 unexpired_token "entry1" ∅ sample_devices sample_registry
              Init.ConnectionError eq_refl) as (Hdata & _ & Hnot_ready & _).
  split; [exact Hdata|exact (Hnot_ready eq_refl)].
Defined.

(** X29.  When the token is fine but the userinfo cannot be had, the setup
    ends in [ConfigEntryNotReady] and leaves the entry behind with its 'auth'
    and without a 'userinfo': so for a requests exception or a
    [MaxRetryError] of the fetch, and so for a userinfo mapping that has the
    key 'error'. *)
Theorem setup_without_userinfo (DOMAIN : string) (host : Init.Host) (now : Z)
    (token : Init.Token) (entry_id : string) (data : gmap string Init.EntryData)
    (devices : list Init.DeviceEntry) (entity_registry : list Init.RegistryEntry)
    (s : string) :
  let done :=
    Init.async_setup_entry DOMAIN host now token entry_id data devices entity_registry in
  let auth := Init.token_after (Init.check_and_refresh_token host now token) in
  Init.returned (Init.check_and_refresh_token host now token) = Init.Fine s ->
  (forall e, Init.login_userinfo host (Init.access_token auth) = Init.Fails e ->
     Init.is_RequestException e = true \/ e = Init.MaxRetryError ->
     Init.outcome done = Init.Fails Init.ConfigEntryNotReady /\
     Init.domain_data done !! entry_id
       = Some {| Init.auth := auth; Init.userinfo := None |}) /\
  (forall u, Init.login_userinfo host (Init.access_token auth) = Init.Fine (VDict u) ->
     is_Some (u !! "error") ->
     Init.outcome done = Init.Fails Init.ConfigEntryNotReady /\
     Init.domain_data done !! entry_id
       = Some {| Init.auth := auth; Init.userinfo := None |} /\
     Init.update_requests done = []).
Proof.
  intros done auth Hret. subst done auth. unfold Init.async_setup_entry. rewrite Hret.
  split.
  - intros e He Hkind. rewrite He. simpl. split; [|by rewrite lookup_insert_eq].
    destruct Hkind as [->| ->]; [done|]. done.
  - intros u Hu Herr. rewrite Hu. simpl. rewrite bool_decide_true by done. simpl.
    split; [done|]. split; [by rewrite lookup_insert_eq|done].
Qed.

Lemma setup_without_userinfo_witness :
  Init.outcome
    (Init.async_setup_entry "postnl"
       (friendly_host (dict [("error", VStr "invalid_token")]))
       1700000100 unexpired_token "entry1" ∅ sample_devices sample_registry)
    = Init.Fails Init.ConfigEntryNotReady /\
  Init.domain_data
    (Init.async_setup_entry "postnl"
       (friendly_host (dict [("error", VStr "invalid_token")]))
       1700000100 unexpired_token "entry1" ∅ sample_devices sample_registry) !! "entry1"
    = Some {| Init.auth := unexpired_token; Init.userinfo := None |}.
Proof.
  destruct (setup_without_userinfo "postnl"
              (friendly_host (dict [("error", VStr "invalid_token")]))
              1700000100 unexpired_token "entry1" ∅ sample_devices sample_registry
              "tok1" eq_refl) as [_ Herror].
  destruct (Herror (list_to_map [("error", VStr "invalid_token")]) eq_refl)
    as (Hout & Hdata & _).
  - vm_compute. eauto.
  - split; [exact Hout|exact Hdata].
Defined.

Lemma setup_stored (DOMAIN : string) (host : Init.Host) (now : Z)
    (token : Init.Token) (entry_id : string) (data : gmap string Init.EntryData)
    (devices : list Init.DeviceEntry) (entity_registry : list Init.RegistryEntry) :
  Init.outcome
    (Init.async_setup_entry DOMAIN host now token entry_id data devices entity_registry)
    = Init.Fine true ->
  exists d1 d2,
    Init.domain_data
      (Init.async_setup_entry DOMAIN host now token entry_id data devices entity_registry)
    = <[entry_id := d2]> (<[entry_id := d1]> data).
Proof.
  unfold Init.async_setup_entry.
  destruct (Init.returned (Init.check_and_refresh_token host now token)) as [s|e].
  2:{ by destruct e. }
  destruct (Init.login_userinfo host _) as [ui|e].
  2:{ simpl. destruct (Init.is_RequestException e); [done|]. by destruct e. }
  destruct (py_contains "error" ui) as [[|]|e]; simpl.
  - by destruct (py_get ui "error" VNone).
  - destruct (Init.migrate DOMAIN host ui devices entity_registry) as [requests [[]|e]];
      simpl; [|done].
    intros _. eauto.
  - done.
Qed.

(** X30.  Unloading after a setup that returned True, for an entry that was
    not in the data before, returns True and gives back the data as they
    were; a further unload of that entry ends with [KeyError]; and an unload
    that the platforms refuse returns False and changes nothing. *)
Theorem setup_then_unload (DOMAIN : string) (host : Init.Host) (now : Z)
    (token : Init.Token) (entry_id : string) (data : gmap string Init.EntryData)
    (devices : list Init.DeviceEntry) (entity_registry : list Init.RegistryEntry) :
  let done :=
    Init.async_setup_entry DOMAIN host now token entry_id data devices entity_registry in
  data !! entry_id = None ->
  Init.outcome done = Init.Fine true ->
  Init.async_unload_entry true entry_id (Init.domain_data done) = (Init.Fine true, data) /\
  Init.async_unload_entry true entry_id data = (Init.Fails (Init.Py KeyError), data) /\
  Init.async_unload_entry false entry_id (Init.domain_data done)
    = (Init.Fine false, Init.domain_data done).
Proof.
  intros done Hnone Hok.
  destruct (setup_stored DOMAIN host now token entry_id data devices entity_registry Hok)
    as (d1 & d2 & Hdata).
  fold done in Hdata. rewrite Hdata. unfold Init.async_unload_entry.
  rewrite lookup_insert_eq, Hnone. repeat split.
  f_equal. rewrite insert_insert_eq. by apply delete_insert_id.
Qed.

Lemma setup_then_unload_witness :
  Init.async_unload_entry true "entry1"
    (Init.domain_data
       (Init.async_setup_entry "postnl" (friendly_host sample_userinfo) 1700000100
          unexpired_token "entry1" ∅ sample_devices sample_registry))
    = (Init.Fine true, ∅) /\
  Init.async_unload_entry true "entry1" (∅ : gmap string Init.EntryData)
    = (Init.Fails (Init.Py KeyError), ∅) /\
  Init.async_unload_entry false "entry1"
    (Init.domain_data
       (Init.async_setup_entry "postnl" (friendly_host sample_userinfo) 1700000100
          unexpired_token "entry1" ∅ sample_devices sample_registry))
    = (Init.Fine false,
       Init.domain_data
         (Init.async_setup_entry "postnl" (friendly_host sample_userinfo) 1700000100
            unexpired_token "entry1" ∅ sample_devices sample_registry)).
Proof.
  apply (setup_then_unload "postnl" (friendly_host sample_userinfo) 1700000100
           unexpired_token "entry1" ∅ sample_devices sample_registry).
  - reflexivity.
  - vm_compute. reflexivity.
Defined.

(** ** Network failures in a cycle *)










